(** * Annotation layout of [annotate_image.py]

    A shallow embedding of the annotation code of the repository
    ([src/annotate_image.py]): the relevance colour, the greedy wrapping of
    the bio text, the measurement of a text block, the overlap test, the
    search over six candidate positions, the clamped fallback, and the loop
    over the ranked profiles that threads the list of occupied regions.

    Pixel coordinates are Python integers, modelled as [Z].  Python strings
    are modelled as [string], one character per code point (the code
    points below 256); dictionaries as [gmap]; a float score by the
    exact rational value it denotes (or an infinity, or NaN), which is all
    that the comparisons of the source observe.  The OpenCV primitive
    [cv2.getTextSize] and the float formatting of Python are parameters of
    the development. *)

From Stdlib Require Import ZArith QArith Lqa Lia Bool List Ascii Sorted Permutation.
From stdpp Require Import gmap strings list fin_maps.

Local Open Scope Z_scope.

(** ** Python string primitives *)

Module PyStr.

(** A character of a [string] stands for one code point of a Python
    [str]; the strings of this development are those whose code points
    are below 256.

    [str.isspace] on one character.  Of the code points below 256, Python
    counts twelve as whitespace: tab, line feed, vertical tab, form feed,
    carriage return (9-13), the four separators 0x1c-0x1f, the space
    (28-32), the next-line control U+0085 and the no-break space U+00A0.
    [str.strip], [str.lstrip], [str.rstrip] and [str.split()] remove
    exactly these. *)
Definition is_space (c : ascii) : bool :=
  let n := nat_of_ascii c in
  ((9 <=? n)%nat && (n <=? 13)%nat) || ((28 <=? n)%nat && (n <=? 32)%nat)
  || (n =? 133)%nat || (n =? 160)%nat.

(** [s.lstrip()] *)
Fixpoint lstrip (s : string) : string :=
  match s with
  | EmptyString => EmptyString
  | String c s' => if is_space c then lstrip s' else s
  end.

(** [s.rstrip()] *)
Fixpoint rstrip (s : string) : string :=
  match s with
  | EmptyString => EmptyString
  | String c s' =>
      let r := rstrip s' in
      if is_space c && String.eqb r "" then EmptyString else String c r
  end.

(** [s.strip()] *)
Definition strip (s : string) : string := rstrip (lstrip s).

(** [s.split(sep)] for a one-character separator: every occurrence of the
    separator ends a token, so consecutive separators give empty tokens and
    the result always has at least one token. *)
Fixpoint split (sep : ascii) (s : string) : list string :=
  match s with
  | EmptyString => [EmptyString]
  | String c s' =>
      if Ascii.eqb c sep then EmptyString :: split sep s'
      else match split sep s' with
           | tok :: toks => String c tok :: toks
           | [] => [String c EmptyString]
           end
  end.





(** [s.startswith(p)] *)
Fixpoint startswith (p s : string) : bool :=
  match p, s with
  | EmptyString, _ => true
  | String _ _, EmptyString => false
  | String a p', String b s' => Ascii.eqb a b && startswith p' s'
  end.

(** The truth value of a string: non-empty. *)
Definition truthy (s : string) : bool := negb (String.eqb s "").




End PyStr.

Import PyStr.


(** ** Python floats, as far as comparisons see them *)

Module PyFloat.

(** A float is a finite value, given by the rational it denotes exactly,
    an infinity, or NaN.  Comparisons of finite floats compare these
    rationals; every comparison with NaN is false. *)
Inductive pyfloat : Type :=
  | Finite (q : Q)
  | PosInf
  | NegInf
  | NaN.

(** [a < b] *)
Definition ltb (a b : pyfloat) : bool :=
  match a, b with
  | NaN, _ | _, NaN => false
  | _, NegInf => false
  | NegInf, _ => true
  | PosInf, _ => false
  | Finite _, PosInf => true
  | Finite x, Finite y => negb (Qle_bool y x)
  end.

(** [a <= b] *)
Definition leb (a b : pyfloat) : bool :=
  match a, b with
  | NaN, _ | _, NaN => false
  | NegInf, _ => true
  | _, NegInf => false
  | _, PosInf => true
  | PosInf, _ => false
  | Finite x, Finite y => Qle_bool x y
  end.

(** The builtin [min(a, b)]: the first argument is kept unless the second
    is strictly smaller. *)
Definition py_min (a b : pyfloat) : pyfloat := if ltb b a then b else a.

(** The builtin [max(a, b)]: the first argument is kept unless the second
    is strictly greater. *)
Definition py_max (a b : pyfloat) : pyfloat := if ltb a b then b else a.

(** The literals [0.0], [1.0], [0.33] and [0.66]; the last two are not
    dyadic, so the literal denotes the nearest binary64 value. *)
Definition f0_0 : pyfloat := Finite 0.
Definition f1_0 : pyfloat := Finite 1.
Definition f0_33 : pyfloat := Finite (5944751508129055 # 18014398509481984).
Definition f0_66 : pyfloat := Finite (5944751508129055 # 9007199254740992).

End PyFloat.

Import PyFloat.

(** ** Data of the annotation pass *)

(** A BGR colour. *)
Definition color : Type := Z * Z * Z.

Definition red : color := (0, 0, 255).
Definition yellow : color := (0, 255, 255).
Definition green : color := (0, 255, 0).

(** The tier of a colour: low, mid, high. *)
Definition tier (c : color) : option nat :=
  let '(b, g, r) := c in
  if (b =? 0) && (g =? 0) && (r =? 255) then Some 0%nat
  else if (b =? 0) && (g =? 255) && (r =? 255) then Some 1%nat
  else if (b =? 0) && (g =? 255) && (r =? 0) then Some 2%nat
  else None.

(** A rectangle [(x1, y1, x2, y2)]. *)
Definition rect : Type := Z * Z * Z * Z.

(** A detection dictionary; both keys may be missing. *)
Record detection : Type := {
  det_id : option string;
  det_bbox : option (Z * Z * Z * Z)   (* (x, y, w, h) *)
}.

(** A profile dictionary. *)
Record profile : Type := {
  prof_name : option string;
  prof_bio : option string
}.

(** The calls made on the image, in order. *)
Inductive draw_op : Type :=
  | Rectangle (pt1 pt2 : Z * Z) (c : color) (thickness : Z)
  | PutText (text : string) (org : Z * Z) (c : color).

Definition FILLED : Z := -1.

(** The state threaded through the loop over the ranked profiles. *)
Record pass_state : Type := {
  image : list draw_op;
  occupied_regions : list rect
}.

(** A text measure with a fixed advance per character, used to run the
    definitions on concrete inputs. *)
Definition fixed_pitch (pitch height : Z) (s : string) : Z * Z :=
  (pitch * Z.of_nat (String.length s), height).

Definition fixed_format (s : string) (_ : pyfloat) : string := s.

(** ** [get_color_for_relevance] *)

(** [max(0.0, min(1.0, score))] *)
Definition clamp01 (score : pyfloat) : pyfloat :=
  py_max f0_0 (py_min f1_0 score).

Definition get_color_for_relevance (score : pyfloat) : color :=
  let score := clamp01 score in
  if leb score f0_33 then (0, 0, 255)
  else if leb score f0_66 then (0, 255, 255)
  else (0, 255, 0).

(** ** [check_overlap] *)

Definition check_overlap (rect1 rect2 : rect) : bool :=
  let '(x1_1, y1_1, x2_1, y2_1) := rect1 in
  let '(x1_2, y1_2, x2_2, y2_2) := rect2 in
  if (x1_1 >=? x2_2) || (x2_1 <=? x1_2) || (y1_1 >=? y2_2) || (y2_1 <=? y1_2)
  then false
  else true.

(** A rectangle lies within the canvas [[0,W]x[0,H]]. *)
Definition in_canvas (img_w img_h : Z) (r : rect) : Prop :=
  let '(x1, y1, x2, y2) := r in
  0 <= x1 /\ 0 <= y1 /\ x2 <= img_w /\ y2 <= img_h.

(** Until the first flush the current line starts with ["Bio:"], and so
    does the first line once there is one. *)
Definition bio_head_inv (st : list string * string) : Prop :=
  match fst st with
  | [] => startswith "Bio:" (snd st) = true
  | line :: _ => startswith "Bio:" line = true
  end.

Section Layout.

(** [cv2.getTextSize(text, font, font_scale, font_thickness)[0]] for the
    fixed font, scale and thickness of [annotate_image]: the pixel width
    and height of a line of text. *)
Variable getTextSize : string -> Z * Z.

Definition text_block_max_width : Z := 250.
Definition qr_box_padding : Z := 5.
Definition padding : Z := 5.

(** ** The bio wrapper (lines 179-204) *)

(** One iteration of [for word in bio_words]: the state is the list
    [lines_for_annotation] and [current_bio_line]. *)
Definition bio_step (st : list string * string) (word : string)
  : list string * string :=
  let '(lines_for_annotation, current_bio_line) := st in
  let test_line := strip (current_bio_line +:+ " " +:+ word) in
  let line_w := fst (getTextSize test_line) in
  if (line_w >? text_block_max_width) && negb (String.eqb current_bio_line "Bio:")
  then (lines_for_annotation ++ [current_bio_line], word)
  else (lines_for_annotation, test_line).

Definition bio_loop (bio_words : list string) (st : list string * string)
  : list string * string :=
  fold_left bio_step bio_words st.

(** The final flush, [if current_bio_line: lines_for_annotation.append(...)]. *)
Definition bio_flush (st : list string * string) : list string :=
  let '(lines_for_annotation, current_bio_line) := st in
  if truthy current_bio_line
  then lines_for_annotation ++ [current_bio_line]
  else lines_for_annotation.

(** The lines that the wrapper contributes for a bio text: the loop run
    from an empty list of lines and the current line ["Bio:"]. *)
Definition wrap_bio (bio_to_display : string) : list string :=
  bio_flush (bio_loop (split " " bio_to_display) ([], "Bio:")).

(** A line fits the width budget, as measured. *)
Definition fits (line : string) : Prop :=
  fst (getTextSize line) <= text_block_max_width.

(** A line of the prefix: ["Bio:"] alone, or ["Bio:"] followed by one
    word. *)
Definition prefix_line (bio_words : list string) (line : string) : Prop :=
  line = "Bio:" \/
  exists word, In word bio_words /\ line = strip ("Bio:" +:+ " " +:+ word).

(** What the loop keeps true of its state when no word reads ["Bio:"]:
    before the first flush the current line fits or is a line of the
    prefix; after it the first line is such a line, and the later lines
    and the current one fit or are one word alone, the current line never
    reading ["Bio:"] again. *)
Definition widths_inv (bio_words : list string)
    (st : list string * string) : Prop :=
  match fst st with
  | [] => fits (snd st) \/ prefix_line bio_words (snd st)
  | first :: rest =>
      (fits first \/ prefix_line bio_words first)
      /\ Forall (fun line => fits line \/ In line bio_words) rest
      /\ (fits (snd st) \/ In (snd st) bio_words)
      /\ strip (snd st) <> "Bio:"
  end.


(** ** [get_text_block_dimensions] (lines 85-109) *)

Definition max_line_width (text_lines : list string) : Z :=
  fold_left
    (fun actual_max_line_width line =>
       let line_w := fst (getTextSize line) in
       if line_w >? actual_max_line_width then line_w
       else actual_max_line_width)
    text_lines 0.

Definition get_text_block_dimensions (text_lines : list string) : Z * Z :=
  match text_lines with
  | [] => (0, 0)
  | _ =>
      let actual_max_line_width := max_line_width text_lines in
      let sample_line_height := snd (getTextSize "Tg") in
      let line_height_with_spacing := sample_line_height + 5 in
      let bg_width := Z.min actual_max_line_width text_block_max_width in
      let bg_height :=
        Z.of_nat (length text_lines) * line_height_with_spacing - 5 in
      (bg_width + 2 * padding, bg_height + 2 * padding)
  end.

(** ** [draw_multiline_text_with_background] (lines 40-83) *)

Fixpoint put_lines (text_lines : list string) (x current_y step : Z)
    (font_color : color) : list draw_op :=
  match text_lines with
  | [] => []
  | line :: rest =>
      PutText line (x, current_y) font_color
        :: put_lines rest x (current_y + step) step font_color
  end.

Definition draw_multiline_text_with_background (img : list draw_op)
    (text_lines : list string) (position : Z * Z)
    (font_color bg_color : color) : list draw_op * rect :=
  let '(x, y) := position in
  match text_lines with
  | [] => (img, (x, y, x, y))
  | _ =>
      let sample_line_height := snd (getTextSize "Tg") in
      let line_height_with_spacing := sample_line_height + 5 in
      let actual_max_line_width := max_line_width text_lines in
      let bg_width := Z.min actual_max_line_width text_block_max_width in
      let bg_height :=
        Z.of_nat (length text_lines) * line_height_with_spacing - 5 in
      let bg_x1 := x - padding in
      let bg_y1 := y - padding in
      let bg_x2 := x + bg_width + padding in
      let bg_y2 := y + bg_height + padding in
      (img ++ Rectangle (bg_x1, bg_y1) (bg_x2, bg_y2) bg_color FILLED
           :: put_lines text_lines x (y + sample_line_height)
                line_height_with_spacing font_color,
       (bg_x1, bg_y1, bg_x2, bg_y2))
  end.

(** ** The placement search (lines 211-249) *)

Definition candidate_positions (bbox : Z * Z * Z * Z) (text_w text_h : Z)
  : list (Z * Z) :=
  let '(qr_x, qr_y, qr_w, qr_h) := bbox in
  [ (qr_x + qr_w + qr_box_padding, qr_y);
    (qr_x - text_w - qr_box_padding, qr_y);
    (qr_x, qr_y + qr_h + qr_box_padding);
    (qr_x, qr_y - text_h - qr_box_padding);
    (qr_x + qr_w / 2 - text_w / 2, qr_y + qr_h + qr_box_padding);
    (qr_x + qr_w / 2 - text_w / 2, qr_y - text_h - qr_box_padding) ].

(** The background rectangle of the block whose text starts at a
    candidate position ([text_w] and [text_h] include both paddings). *)
Definition candidate_rect (cand : Z * Z) (text_w text_h : Z) : rect :=
  let '(cand_x, cand_y) := cand in
  let padding_for_bg := 5 in
  (cand_x - padding_for_bg, cand_y - padding_for_bg,
   cand_x + text_w - padding_for_bg, cand_y + text_h - padding_for_bg).

(** The inner loop over [occupied_regions], with its [break]. *)
Fixpoint is_overlapping (candidate_rect : rect) (occupied : list rect) : bool :=
  match occupied with
  | [] => false
  | occupied_rect :: rest =>
      if check_overlap candidate_rect occupied_rect then true
      else is_overlapping candidate_rect rest
  end.

(** The loop over the candidates; [None] is [best_pos is None]. *)
Fixpoint search_candidates (cands : list (Z * Z)) (text_w text_h : Z)
    (img_w img_h : Z) (occupied : list rect) : option (Z * Z) :=
  match cands with
  | [] => None
  | cand :: rest =>
      let '(cand_bg_x1, cand_bg_y1, cand_bg_x2, cand_bg_y2) :=
        candidate_rect cand text_w text_h in
      if (cand_bg_x1 <? 0) || (cand_bg_y1 <? 0)
         || (cand_bg_x2 >? img_w) || (cand_bg_y2 >? img_h)
      then search_candidates rest text_w text_h img_w img_h occupied
      else if is_overlapping
                (cand_bg_x1, cand_bg_y1, cand_bg_x2, cand_bg_y2) occupied
      then search_candidates rest text_w text_h img_w img_h occupied
      else Some cand
  end.

Definition find_position (bbox : Z * Z * Z * Z) (text_w text_h : Z)
    (img_w img_h : Z) (occupied : list rect) : option (Z * Z) :=
  search_candidates (candidate_positions bbox text_w text_h)
    text_w text_h img_w img_h occupied.

(** A candidate is accepted when the background rectangle of the block
    lies within the canvas and overlaps no occupied region. *)
Definition accepted (text_w text_h img_w img_h : Z) (occupied : list rect)
    (cand : Z * Z) : Prop :=
  in_canvas img_w img_h (candidate_rect cand text_w text_h)
  /\ Forall (fun r => check_overlap (candidate_rect cand text_w text_h) r = false)
       occupied.

(** ** The fallback (lines 251-265) and the last adjustment (268-278) *)

Definition fallback_position (bbox : Z * Z * Z * Z) (text_w text_h : Z)
    (img_w img_h : Z) : Z * Z :=
  let '(qr_x, qr_y, qr_w, qr_h) := bbox in
  let best_pos_x := qr_x + qr_w + qr_box_padding in
  let best_pos_y := qr_y + 5 in
  let best_pos_x :=
    if best_pos_x + text_w - 5 >? img_w then img_w - text_w + 5
    else best_pos_x in
  let best_pos_y :=
    if best_pos_y + text_h - 5 >? img_h then img_h - text_h + 5
    else best_pos_y in
  let best_pos_x := if best_pos_x <? 5 then 5 else best_pos_x in
  let best_pos_y := if best_pos_y <? 5 then 5 else best_pos_y in
  (best_pos_x, best_pos_y).

Definition final_text_position (best_pos : Z * Z) : Z * Z :=
  let '(final_text_x, final_text_y) := best_pos in
  let bg_padding := 5 in
  let final_text_y :=
    if final_text_y - bg_padding <? 0 then bg_padding else final_text_y in
  let final_text_x :=
    if final_text_x - bg_padding <? 0 then bg_padding else final_text_x in
  (final_text_x, final_text_y).

(** ** The pass (lines 142-286) *)

(** The dictionary comprehension of line 143: a later detection replaces
    an earlier one with the same id. *)
Definition detections_map (all_detections : list detection)
  : gmap string detection :=
  fold_left
    (fun m det =>
       match det_id det, det_bbox det with
       | Some i, Some _ => <[i := det]> m
       | _, _ => m
       end)
    all_detections ∅.

(** Python's [f"{score:.2f}"]. *)
Variable format_score : pyfloat -> string.

Definition name_to_display (profiles_data : gmap string profile)
    (profile_id : string) : string :=
  match profiles_data !! profile_id with
  | Some profile_info => default profile_id (prof_name profile_info)
  | None => profile_id
  end.

Definition bio_to_display (profiles_data : gmap string profile)
    (profile_id : string) : string :=
  match profiles_data !! profile_id with
  | Some profile_info => default "Bio not available." (prof_bio profile_info)
  | None => "Bio not available."
  end.

(** [lines_for_annotation] as it stands at line 205. *)
Definition lines_for_annotation (name : string) (score : pyfloat)
    (bio : string) : list string :=
  bio_flush
    (bio_loop (split " " bio)
       (["Name: " +:+ name; "Score: " +:+ format_score score], "Bio:")).

Definition font_color : color := (0, 0, 0).
Definition text_bg_color : color := (250, 250, 240).
Definition box_thickness : Z := 2.

(** The position at which the block is drawn: the first accepted
    candidate, or else the fallback. *)
Definition best_position (bbox : Z * Z * Z * Z) (text_w text_h : Z)
    (img_w img_h : Z) (occupied : list rect) : Z * Z :=
  match find_position bbox text_w text_h img_w img_h occupied with
  | Some best_pos => best_pos
  | None => fallback_position bbox text_w text_h img_w img_h
  end.

(** The body of [for profile_id, score in ranked_profiles]. *)
Definition annotate_profile (img_w img_h : Z)
    (dets : gmap string detection) (profiles_data : gmap string profile)
    (st : pass_state) (item : string * pyfloat) : pass_state :=
  let '(profile_id, score) := item in
  match dets !! profile_id with
  | None => st
  | Some det =>
      match det_bbox det with
      | None => st
      | Some bbox =>
          let '(qr_x, qr_y, qr_w, qr_h) := bbox in
          let dynamic_box_color := get_color_for_relevance score in
          let img1 :=
            image st ++ [Rectangle (qr_x, qr_y) (qr_x + qr_w, qr_y + qr_h)
                           dynamic_box_color box_thickness] in
          let lines :=
            lines_for_annotation (name_to_display profiles_data profile_id)
              score (bio_to_display profiles_data profile_id) in
          let '(text_w, text_h) := get_text_block_dimensions lines in
          if (text_w =? 0) || (text_h =? 0)
          then {| image := img1; occupied_regions := occupied_regions st |}
          else
            let best_pos :=
              best_position bbox text_w text_h img_w img_h
                (occupied_regions st) in
            let '(img2, drawn_rect) :=
              draw_multiline_text_with_background img1 lines
                (final_text_position best_pos) font_color text_bg_color in
            {| image := img2;
               occupied_regions := occupied_regions st ++ [drawn_rect] |}
      end
  end.

(** The pass over the ranked profiles, from an image of [img_w] by [img_h]
    pixels and an empty list of occupied regions. *)
Definition annotate_from (img_w img_h : Z)
    (dets : gmap string detection) (profiles_data : gmap string profile)
    (ranked_profiles : list (string * pyfloat)) (st : pass_state)
  : pass_state :=
  fold_left (annotate_profile img_w img_h dets profiles_data)
    ranked_profiles st.

Definition annotate_image (img_w img_h : Z)
    (ranked_profiles : list (string * pyfloat))
    (all_detections : list detection) (profiles_data : gmap string profile)
  : pass_state :=
  annotate_from img_w img_h (detections_map all_detections) profiles_data
    ranked_profiles {| image := []; occupied_regions := [] |}.

End Layout.

(** ** Sample data

    A measure of 10 pixels per character and 10 pixels of height, one
    detection and one profile, to run the pass on concrete inputs. *)

Definition sample_getTextSize : string -> Z * Z := fixed_pitch 10 10.

Definition sample_score : pyfloat := Finite (95 # 100).

Definition sample_format : pyfloat -> string := fixed_format "0.95".

Definition sample_detection (bbox : Z * Z * Z * Z) : detection :=
  {| det_id := Some "id1"; det_bbox := Some bbox |}.

Definition sample_profiles (bio : string) : gmap string profile :=
  {[ "id1" := {| prof_name := Some "Alice"; prof_bio := Some bio |} ]}.

(** A detection that the map of detections keeps under the id [i]. *)
Definition usable (i : string) (det : detection) : Prop :=
  det_id det = Some i /\ is_Some (det_bbox det).

(** ** Views of the image *)

(** The filled rectangles drawn on the image, in order. *)
Definition filled_rects (img : list draw_op) : list rect :=
  omap
    (fun op =>
       match op with
       | Rectangle (x1, y1) (x2, y2) _ thickness =>
           if thickness =? FILLED then Some (x1, y1, x2, y2) else None
       | PutText _ _ _ => None
       end)
    img.

(** A rectangle stroked with the thickness of the anchor boxes. *)
Definition is_anchor_box (op : draw_op) : bool :=
  match op with
  | Rectangle _ _ _ thickness => thickness =? box_thickness
  | PutText _ _ _ => false
  end.

(** The text of the [cv2.putText] calls, in order. *)
Definition drawn_texts (img : list draw_op) : list string :=
  omap
    (fun op =>
       match op with
       | PutText text _ _ => Some text
       | Rectangle _ _ _ _ => None
       end)
    img.

(** The anchor boxes of the ranked items that have a detection. *)
Definition anchor_boxes (dets : gmap string detection)
    (ranked_profiles : list (string * pyfloat)) : list draw_op :=
  omap
    (fun item : string * pyfloat =>
       match dets !! item.1 with
       | Some det =>
           match det_bbox det with
           | Some (qr_x, qr_y, qr_w, qr_h) =>
               Some (Rectangle (qr_x, qr_y) (qr_x + qr_w, qr_y + qr_h)
                       (get_color_for_relevance item.2) box_thickness)
           | None => None
           end
       | None => None
       end)
    ranked_profiles.

Definition is_Some_bool {A : Type} (o : option A) : bool :=
  match o with Some _ => true | None => false end.

(** No two regions of the list overlap. *)
Definition pairwise_disjoint (regions : list rect) : Prop :=
  ForallOrdPairs (fun r1 r2 => check_overlap r1 r2 = false) regions.

Section PassViews.

Variable getTextSize : string -> Z * Z.
Variable format_score : pyfloat -> string.

(** The annotation lines of the ranked items that have a detection, item
    after item. *)
Definition annotation_lines (dets : gmap string detection)
    (profiles_data : gmap string profile)
    (ranked_profiles : list (string * pyfloat)) : list string :=
  flat_map
    (fun item : string * pyfloat =>
       match dets !! item.1 with
       | Some det =>
           match det_bbox det with
           | Some _ =>
               lines_for_annotation getTextSize format_score
                 (name_to_display profiles_data item.1) item.2
                 (bio_to_display profiles_data item.1)
           | None => []
           end
       | None => []
       end)
    ranked_profiles.

(** The item is processed and all six candidates are rejected for it, so
    that its block is placed by the fallback. *)
Definition falls_back (img_w img_h : Z) (dets : gmap string detection)
    (profiles_data : gmap string profile) (st : pass_state)
    (item : string * pyfloat) : bool :=
  match dets !! item.1 with
  | Some det =>
      match det_bbox det with
      | Some bbox =>
          let lines :=
            lines_for_annotation getTextSize format_score
              (name_to_display profiles_data item.1) item.2
              (bio_to_display profiles_data item.1) in
          let '(text_w, text_h) := get_text_block_dimensions getTextSize lines in
          negb ((text_w =? 0) || (text_h =? 0))
          && negb (is_Some_bool
                     (find_position bbox text_w text_h img_w img_h
                        (occupied_regions st)))
      | None => false
      end
  | None => false
  end.

(** The items of a pass whose block is placed by the fallback. *)
Fixpoint fallback_items (img_w img_h : Z) (dets : gmap string detection)
    (profiles_data : gmap string profile)
    (ranked_profiles : list (string * pyfloat)) (st : pass_state)
  : list (string * pyfloat) :=
  match ranked_profiles with
  | [] => []
  | item :: rest =>
      let st' :=
        annotate_profile getTextSize format_score img_w img_h dets
          profiles_data st item in
      if falls_back img_w img_h dets profiles_data st item
      then item :: fallback_items img_w img_h dets profiles_data rest st'
      else fallback_items img_w img_h dets profiles_data rest st'
  end.

End PassViews.

(** ** [score_relevance.py] *)

(** A profile dictionary of the profiles file, with the keys that the
    application reads.  The relevance is the value of
    [float(profile["relevance"])]. *)
Record profile_entry : Type := {
  entry_id : option string;
  entry_name : option string;
  entry_bio : option string;
  entry_relevance : option pyfloat;
  entry_explanation : option string
}.

(** The keys of a profile that [annotate_image] reads. *)
Definition entry_profile (entry : profile_entry) : profile :=
  {| prof_name := entry_name entry; prof_bio := entry_bio entry |}.

(** The defaults that [load_profiles] writes into a profile that has the
    id [id] (lines 29-37). *)
Definition with_defaults (id : string) (entry : profile_entry)
  : profile_entry :=
  {| entry_id := Some id;
     entry_name := Some (default id (entry_name entry));
     entry_bio := entry_bio entry;
     entry_relevance := Some (default f0_0 (entry_relevance entry));
     entry_explanation := Some (default "N/A" (entry_explanation entry)) |}.

(** [load_profiles]: [None] stands for a file that is missing or does not
    hold a JSON list of objects (every [except] branch returns the empty
    dictionary). *)
Definition load_profiles (profiles_list : option (list profile_entry))
  : gmap string profile_entry :=
  match profiles_list with
  | None => ∅
  | Some profiles =>
      fold_left
        (fun profiles_dict entry =>
           match entry_id entry with
           | Some id => <[id := with_defaults id entry]> profiles_dict
           | None => profiles_dict
           end)
        profiles ∅
  end.

(** [l.sort(key=lambda x: x[1], reverse=True)]: a stable sort by
    decreasing score.  For scores without NaN every stable sort returns
    this list, and so does the sort of Python.  With a NaN among the
    scores the comparisons are no order, and the list that Python returns
    depends on the merges of its sort: this definition then gives one
    permutation of the candidates, and only what holds of every
    permutation of them (the pairs, their number) is stated without the
    assumption that no score is NaN. *)
Fixpoint insert_desc (x : string * pyfloat) (l : list (string * pyfloat))
  : list (string * pyfloat) :=
  match l with
  | [] => [x]
  | y :: l' => if ltb x.2 y.2 then y :: insert_desc x l' else x :: l
  end.

Definition sort_desc (l : list (string * pyfloat)) : list (string * pyfloat) :=
  fold_right insert_desc [] l.

(** The slice [l[:k]]; a negative [k] counts from the end. *)
Definition slice_to {A : Type} (k : Z) (l : list A) : list A :=
  if 0 <=? k then take (Z.to_nat k) l
  else take (length l - Z.to_nat (- k)) l.

(** The score is NaN. *)
Definition is_nan (x : pyfloat) : bool :=
  match x with NaN => true | _ => false end.

(** Two scores compare equal. *)
Definition same_score (a b : pyfloat) : bool := leb a b && leb b a.

(** The first item may come before the second in a ranking by decreasing
    score. *)
Definition desc (x y : string * pyfloat) : Prop := leb y.2 x.2 = true.

(** What the loop of lines 72-81 appends for one detected id. *)
Definition scored (all_profiles_data : gmap string profile_entry)
    (pid : string) : option (string * pyfloat) :=
  match all_profiles_data !! pid with
  | Some entry =>
      match entry_relevance entry with
      | Some relevance => Some (pid, relevance)
      | None => None
      end
  | None => None
  end.

(** The loop of lines 72-81. *)
Definition candidate_profiles_with_scores (detected_ids : list string)
    (all_profiles_data : gmap string profile_entry)
  : list (string * pyfloat) :=
  fold_left
    (fun acc pid =>
       match all_profiles_data !! pid with
       | Some entry =>
           match entry_relevance entry with
           | Some relevance => acc ++ [(pid, relevance)]
           | None => acc
           end
       | None => acc
       end)
    detected_ids [].

Definition rank_profiles (detected_ids : list string)
    (all_profiles_data : gmap string profile_entry) (top_k : Z)
  : list (string * pyfloat) :=
  match detected_ids with
  | [] => []
  | _ =>
      if decide (all_profiles_data = ∅) then []
      else
        match candidate_profiles_with_scores detected_ids all_profiles_data with
        | [] => []
        | candidates => slice_to top_k (sort_desc candidates)
        end
  end.

(** ** [detect_qr.py] and the pipeline of [main.py] *)

(** An object decoded by [pyzbar]: its data and its rectangle
    [(left, top, width, height)]. *)
Record decoded_object : Type := {
  obj_data : list Byte.byte;
  obj_rect : Z * Z * Z * Z
}.

(** What one run of the pipeline ends with. *)
Inductive pipeline_result : Type :=
  | NoDetections
  | KeyErrorId
  | NoProfiles
  | NothingRanked
  | Annotated (st : pass_state).

Section Pipeline.

Variable getTextSize : string -> Z * Z.
Variable format_score : pyfloat -> string.

(** [bytes.decode('utf-8')]; [None] is [UnicodeDecodeError]. *)
Variable utf8_decode : list Byte.byte -> option string.

(** [detect_qr_codes]: [None] stands for an image that cannot be read. *)
Definition detect_qr_codes (decoded_objects : option (list decoded_object))
  : list detection :=
  match decoded_objects with
  | None => []
  | Some objs =>
      fold_left
        (fun detections obj =>
           match utf8_decode (obj_data obj) with
           | None => detections
           | Some qr_id =>
               detections
                 ++ [{| det_id := Some qr_id; det_bbox := Some (obj_rect obj) |}]
           end)
        objs []
  end.

(** [run_image_processing_pipeline] on an image of [img_w] by [img_h]
    pixels, which [annotate_image] reads again after [detect_qr_codes]
    has read it.  [KeyErrorId] is the exception of [det["id"]] on a
    detection without id. *)
Definition run_image_processing_pipeline (img_w img_h : Z)
    (decoded_objects : option (list decoded_object))
    (profiles_list : option (list profile_entry)) (top_k : Z)
  : pipeline_result :=
  let detections := detect_qr_codes decoded_objects in
  match detections with
  | [] => NoDetections
  | _ =>
      match mapM det_id detections with
      | None => KeyErrorId
      | Some detected_ids =>
          let all_profiles_data := load_profiles profiles_list in
          if decide (all_profiles_data = ∅) then NoProfiles
          else
            match rank_profiles detected_ids all_profiles_data top_k with
            | [] => NothingRanked
            | ranked_results =>
                Annotated
                  (annotate_image getTextSize format_score img_w img_h
                     ranked_results detections
                     (entry_profile <$> all_profiles_data))
            end
      end
  end.

End Pipeline.

(** ** [utils.py] *)

(** A JSON value, as [json.load] returns it. *)
#[warnings="-register-all"] Inductive jvalue : Type :=
  | JNull
  | JBool (b : bool)
  | JInt (n : Z)
  | JFloat (x : pyfloat)
  | JStr (s : string)
  | JArray (items : list jvalue)
  | JObject (fields : list (string * jvalue)).

(** [p[:p.rfind('/') + 1]] *)
Fixpoint upto_last_sep (p : string) : string :=
  match p with
  | EmptyString => EmptyString
  | String c p' =>
      let head := upto_last_sep p' in
      if Ascii.eqb c "/" || negb (String.eqb head "")
      then String c head
      else EmptyString
  end.

(** [head == '/' * len(head)] *)
Fixpoint all_sep (head : string) : bool :=
  match head with
  | EmptyString => true
  | String c head' => Ascii.eqb c "/" && all_sep head'
  end.

(** [head.rstrip('/')] *)
Fixpoint rstrip_sep (head : string) : string :=
  match head with
  | EmptyString => EmptyString
  | String c head' =>
      let r := rstrip_sep head' in
      if Ascii.eqb c "/" && String.eqb r "" then EmptyString else String c r
  end.

(** The character occurs in the string. *)
Fixpoint contains (c : ascii) (s : string) : bool :=
  match s with
  | EmptyString => false
  | String a s' => Ascii.eqb a c || contains c s'
  end.

(** The string ends with the character. *)
Fixpoint ends_with (c : ascii) (s : string) : bool :=
  match s with
  | EmptyString => false
  | String a EmptyString => Ascii.eqb a c
  | String _ s' => ends_with c s'
  end.

(** [os.path.dirname] of a string, on a POSIX system. *)
Definition dirname (p : string) : string :=
  let head := upto_last_sep p in
  if negb (String.eqb head "") && negb (all_sep head)
  then rstrip_sep head
  else head.

Definition DEFAULT_CONFIG : gmap string jvalue :=
  list_to_map
    [ ("TOP_K_RESULTS", JInt 3);
      ("USER_BIO",
       JStr "Dartmouth Computer Science sophomore actively seeking a challenging Software Engineering internship for Summer 2025. Proficient in Python, Java, and C++, with hands-on experience in web development (React, Node.js) through personal projects and coursework. Strong interest in machine learning and data analysis. Eager to contribute to innovative projects and learn from experienced engineers. Active member of the Dartmouth Coding Club, recently collaborated on developing a campus utility mobile application.");
      ("PROFILES_JSON_PATH", JStr "data/profile_relevance.json");
      ("BASE_PROFILES_JSON_PATH", JStr "data/base_profiles.json");
      ("QR_CODES_DIR", JStr "data/qr_codes/");
      ("INPUT_IMAGE_PATH", JStr "assets/sample_group.jpg");
      ("OUTPUT_IMAGE_DIR", JStr "assets/annotated_images/");
      ("NUM_PROFILES_TO_GENERATE", JInt 20);
      ("SAMPLE_IMAGES_DIR", JStr "assets/sample_test_images/");
      ("CHAT_MODEL_NAME", JStr "anthropic.claude-3-7-sonnet-20250219") ].

(** The file [config.json] as [load_config] finds it: missing, present
    but not readable as JSON, or holding a JSON object.  A file that holds
    JSON of another kind is not covered. *)
Inductive config_file : Type :=
  | ConfigMissing
  | ConfigUnreadable
  | ConfigObject (user_config : gmap string jvalue).

(** The handling of the legacy key (lines 34-46): the user configuration
    as it stands before [config.update], or [None] when
    [os.path.dirname] raises on a value that is not a string. *)
Definition convert_legacy_key (user_config : gmap string jvalue)
  : option (gmap string jvalue) :=
  match user_config !! "OUTPUT_IMAGE_DIR", user_config !! "OUTPUT_IMAGE_PATH" with
  | None, Some legacy_output_path =>
      let user_config := delete "OUTPUT_IMAGE_PATH" user_config in
      match legacy_output_path with
      | JStr path =>
          let derived_output_dir := dirname path in
          if negb (String.eqb derived_output_dir "")
          then Some (<["OUTPUT_IMAGE_DIR" := JStr derived_output_dir]> user_config)
          else Some user_config
      | _ => None
      end
  | _, _ => Some user_config
  end.

(** [load_config]: the configuration it returns, and the configuration
    it hands to [save_config], if any. *)
Definition load_config (file : config_file)
  : gmap string jvalue * option (gmap string jvalue) :=
  let config := DEFAULT_CONFIG in
  match file with
  | ConfigObject user_config =>
      match convert_legacy_key user_config with
      | Some user_config => (user_config ∪ config, None)
      | None => (config, None)
      end
  | ConfigUnreadable => (config, None)
  | ConfigMissing => (config, Some config)
  end.

(** ** Sample data of the pipeline *)

(** A decoder that accepts ASCII data only; ASCII data is its own UTF-8
    decoding. *)
Definition ascii_decode (data : list Byte.byte) : option string :=
  if forallb (fun b => (Byte.to_N b <? 128)%N) data
  then Some (String.string_of_list_byte data)
  else None.

Definition sample_entry (id : string) (relevance : Q) : profile_entry :=
  {| entry_id := Some id; entry_name := None;
     entry_bio := Some "Builds compilers";
     entry_relevance := Some (Finite relevance);
     entry_explanation := None |}.

Definition sample_entries : list profile_entry :=
  [sample_entry "id1" (1 # 2); sample_entry "id2" (9 # 10);
   sample_entry "id3" (1 # 2)].

Definition sample_object (id : string) (rect : Z * Z * Z * Z)
  : decoded_object :=
  {| obj_data := String.list_byte_of_string id; obj_rect := rect |}.

Definition sample_objects : list decoded_object :=
  [sample_object "id1" (50, 50, 60, 60);
   sample_object "id2" (70, 70, 60, 60);
   sample_object "id3" (400, 300, 90, 90)].

(** * Properties *)

(** ** Strings *)

Module PyStrFacts.

Lemma append_nil_l (b : string) : "" +:+ b = b.
Proof. reflexivity. Qed.

Lemma append_cons (c : ascii) (a b : string) :
  String c a +:+ b = String c (a +:+ b).
Proof. reflexivity. Qed.

Lemma append_assoc (a b c : string) : (a +:+ b) +:+ c = a +:+ (b +:+ c).
Proof.
  induction a as [|x a IH]; [reflexivity |].
  rewrite !append_cons. now f_equal.
Qed.

Lemma split_not_nil (sep : ascii) (s : string) : split sep s <> [].
Proof.
  destruct s as [|c s]; cbn; [discriminate |].
  destruct (Ascii.eqb c sep); [discriminate |].
  destruct (split sep s); discriminate.
Qed.








Lemma rstrip_app (a b : string) :
  rstrip b <> "" -> rstrip (a +:+ b) = a +:+ rstrip b.
Proof.
  intros Hb. induction a as [|c a IH]; [reflexivity |].
  rewrite !append_cons. cbn [rstrip]. rewrite IH.
  assert (String.eqb (a +:+ rstrip b) "" = false) as ->.
  { apply String.eqb_neq. destruct a; [assumption | discriminate]. }
  now rewrite andb_false_r.
Qed.


Lemma startswith_spec (p s : string) :
  startswith p s = true <-> exists r, s = p +:+ r.
Proof.
  revert s. induction p as [|a p IH]; intros s.
  - split; [intros _; now exists s | reflexivity].
  - destruct s as [|b s]; cbn [startswith].
    + split; [discriminate | intros (r & H); discriminate].
    + rewrite andb_true_iff, Ascii.eqb_eq, IH. split.
      * intros (-> & r & ->). now exists r.
      * intros (r & H). rewrite append_cons in H.
        injection H as -> ->. split; [reflexivity | now exists r].
Qed.

Lemma lstrip_cons (c : ascii) (s : string) :
  is_space c = false -> lstrip (String c s) = String c s.
Proof. intros H. cbn [lstrip]. now rewrite H. Qed.

Lemma rstrip_cons (c : ascii) (s : string) :
  is_space c = false -> rstrip (String c s) = String c (rstrip s).
Proof. intros H. cbn [rstrip]. now rewrite H. Qed.

(** A line that starts with ["Bio:"] still does after [strip]. *)
Lemma startswith_Bio_strip (s : string) :
  startswith "Bio:" s = true -> startswith "Bio:" (strip s) = true.
Proof.
  intros (r & ->)%startswith_spec. apply startswith_spec.
  exists (rstrip r). unfold strip.
  change ("Bio:" +:+ r) with (String "B" (String "i" (String "o" (String ":" r)))).
  rewrite lstrip_cons by reflexivity.
  rewrite !rstrip_cons by reflexivity. reflexivity.
Qed.

Lemma startswith_app (p s t : string) :
  startswith p s = true -> startswith p (s +:+ t) = true.
Proof.
  intros (r & ->)%startswith_spec. apply startswith_spec.
  exists (r +:+ t). apply append_assoc.
Qed.

Lemma startswith_truthy (s : string) :
  startswith "Bio:" s = true -> truthy s = true.
Proof. intros (r & ->)%startswith_spec. reflexivity. Qed.

(** *** [strip] on a concatenation *)

Lemma lstrip_app_blank (a x : string) :
  lstrip a = "" -> lstrip (a +:+ x) = lstrip x.
Proof.
  induction a as [|c a IH]; [reflexivity |].
  rewrite append_cons. cbn [lstrip].
  destruct (is_space c); [exact IH | discriminate].
Qed.

Lemma lstrip_app (a x : string) :
  lstrip a <> "" -> lstrip (a +:+ x) = lstrip a +:+ x.
Proof.
  induction a as [|c a IH]; [intros H; now contradiction H |].
  rewrite append_cons. cbn [lstrip].
  destruct (is_space c); [exact IH | intros _; now rewrite append_cons].
Qed.

Lemma rstrip_app_blank (a b : string) :
  rstrip b = "" -> rstrip (a +:+ b) = rstrip a.
Proof.
  intros Hb. induction a as [|c a IH]; [exact Hb |].
  rewrite append_cons. cbn [rstrip]. now rewrite IH.
Qed.

Lemma rstrip_idem (s : string) : rstrip (rstrip s) = rstrip s.
Proof.
  induction s as [|c s IH]; [reflexivity |]. cbn [rstrip].
  destruct (is_space c && String.eqb (rstrip s) "") eqn:E; [reflexivity |].
  cbn [rstrip]. rewrite IH. now rewrite E.
Qed.

Lemma lstrip_rstrip (s : string) :
  lstrip (rstrip (lstrip s)) = rstrip (lstrip s).
Proof.
  induction s as [|c s IH]; [reflexivity |]. cbn [lstrip].
  destruct (is_space c) eqn:E; [exact IH |].
  rewrite rstrip_cons by exact E. now apply lstrip_cons.
Qed.

(** [strip] leaves a stripped string alone. *)
Lemma strip_idem (s : string) : strip (strip s) = strip s.
Proof. unfold strip. rewrite lstrip_rstrip. apply rstrip_idem. Qed.

(** The word ["Bio:"] has no space in it. *)
Lemma app_space_not_Bio (u r : string) : u +:+ String " " r <> "Bio:".
Proof.
  destruct u as [|c1 [|c2 [|c3 [|c4 [|c5 u]]]]];
    rewrite ?append_cons, ?append_nil_l; intros H; congruence.
Qed.

(** A line [a b] strips to ["Bio:"] only when [a] or [b] does, the other
    one being blank. *)
Lemma strip_join_Bio (a b : string) :
  strip (a +:+ " " +:+ b) = "Bio:" -> strip a = "Bio:" \/ strip b = "Bio:".
Proof.
  unfold strip. change (" " +:+ b) with (String " " b).
  destruct (String.eqb_spec (lstrip a) "") as [Ha|Ha].
  - rewrite lstrip_app_blank by exact Ha.
    change (lstrip (String " " b)) with (lstrip b). auto.
  - rewrite lstrip_app by exact Ha.
    destruct (String.eqb_spec (rstrip (String " " b)) "") as [Hb|Hb].
    + rewrite rstrip_app_blank by exact Hb. auto.
    + rewrite rstrip_app by exact Hb. intros H. exfalso.
      cbn [rstrip] in H, Hb.
      destruct (is_space " " && String.eqb (rstrip b) ""); [congruence |].
      now apply app_space_not_Bio in H.
Qed.

(** *** The tokens of [s.split()] *)







(** *** Texts whose only whitespace is the space *)






End PyStrFacts.

(** ** The relevance colour *)

Module ColorFacts.

Lemma Qle_bool_false (x y : Q) : Qle_bool x y = false -> (y < x)%Q.
Proof.
  intros H. apply Qnot_le_lt. intros Hle.
  apply Qle_bool_iff in Hle. congruence.
Qed.

(** Case analysis on every rational comparison of the goal, keeping the
    outcome as an order fact. *)
Ltac split_Qle :=
  repeat match goal with
    | |- context [Qle_bool ?a ?b] =>
        let E := fresh "E" in
        destruct (Qle_bool a b) eqn:E;
        [ apply Qle_bool_iff in E | apply Qle_bool_false in E ];
        cbn [negb]
    end.

Ltac unfold_color :=
  unfold get_color_for_relevance, clamp01, py_max, py_min, ltb, leb,
    f0_0, f1_0, f0_33, f0_66 in *.

(** The clamped score is a finite value between 0 and 1. *)
Lemma clamp01_range (score : pyfloat) :
  exists q, clamp01 score = Finite q /\ (0 <= q <= 1)%Q.
Proof.
  unfold_color.
  destruct score as [q| | |]; cbn; split_Qle;
    eexists; (split; [reflexivity | lra]).
Qed.

Lemma clamp01_mono (s1 s2 : pyfloat) :
  ltb s1 s2 = true -> leb (clamp01 s1) (clamp01 s2) = true.
Proof.
  unfold_color.
  destruct s1 as [q1| | |], s2 as [q2| | |]; cbn; try discriminate;
    split_Qle; intros; try reflexivity; try discriminate; try lra;
    apply Qle_bool_iff; lra.
Qed.

End ColorFacts.

(** C7.  For every float score, [get_color_for_relevance] first clamps the
    score to [0,1] (a score above 1 becomes 1.0, a score below 0 becomes
    0.0; nothing is rejected) and returns exactly one of three fixed
    colours: red when the clamped score is at most 0.33, yellow when it is
    above 0.33 and at most 0.66, green when it is above 0.66.  The tier of
    the colour never decreases when the score increases. *)
Theorem get_color_for_relevance_tiers (score : pyfloat) :
  let s := clamp01 score in
  let c := get_color_for_relevance score in
  (leb f0_0 s = true /\ leb s f1_0 = true) /\
  (ltb f1_0 score = true -> s = f1_0) /\
  (ltb score f0_0 = true -> s = f0_0) /\
  (leb s f0_33 = true -> c = red) /\
  (ltb f0_33 s = true -> leb s f0_66 = true -> c = yellow) /\
  (ltb f0_66 s = true -> c = green) /\
  (c = red \/ c = yellow \/ c = green) /\
  (forall score', ltb score score' = true ->
     exists t t', tier c = Some t /\
       tier (get_color_for_relevance score') = Some t' /\ (t <= t')%nat).
Proof.
  intros s c. subst s c.
  repeat apply conj.
  - destruct (ColorFacts.clamp01_range score) as (q & -> & Hq).
    apply Qle_bool_iff. apply Hq.
  - destruct (ColorFacts.clamp01_range score) as (q & -> & Hq).
    apply Qle_bool_iff. apply Hq.
  - ColorFacts.unfold_color.
    destruct score as [q| | |]; cbn; try discriminate; try reflexivity.
    ColorFacts.split_Qle; intros; try discriminate; try reflexivity; lra.
  - ColorFacts.unfold_color.
    destruct score as [q| | |]; cbn; try discriminate; try reflexivity.
    ColorFacts.split_Qle; intros; try discriminate; try reflexivity; lra.
  - unfold get_color_for_relevance. intros ->. reflexivity.
  - unfold get_color_for_relevance.
    destruct (ColorFacts.clamp01_range score) as (q & -> & Hq).
    unfold ltb, leb, f0_33, f0_66. ColorFacts.split_Qle;
      intros; try discriminate; try reflexivity; lra.
  - unfold get_color_for_relevance.
    destruct (ColorFacts.clamp01_range score) as (q & -> & Hq).
    unfold ltb, leb, f0_33, f0_66. ColorFacts.split_Qle;
      intros; try discriminate; try reflexivity; lra.
  - unfold get_color_for_relevance.
    destruct (leb (clamp01 score) f0_33); [now left |].
    destruct (leb (clamp01 score) f0_66); [right; now left | right; now right].
  - intros score' Hlt. apply ColorFacts.clamp01_mono in Hlt.
    unfold get_color_for_relevance.
    destruct (ColorFacts.clamp01_range score) as (q & Eq & Hq).
    destruct (ColorFacts.clamp01_range score') as (q' & Eq' & Hq').
    rewrite Eq, Eq' in *. unfold leb in Hlt. apply Qle_bool_iff in Hlt.
    unfold leb, f0_33, f0_66. ColorFacts.split_Qle; cbn;
      try (exfalso; lra);
      do 2 eexists; (split; [reflexivity | split; [reflexivity | lia]]).
Qed.

(** The score 0.5 of the specification's scenario: mid tier. *)
Lemma get_color_for_relevance_tiers_witness :
  get_color_for_relevance (Finite (1 # 2)) = yellow.
Proof.
  apply (get_color_for_relevance_tiers (Finite (1 # 2))); reflexivity.
Defined.

(** ** The bio wrapper *)

Section WrapperFacts.

Context (getTextSize : string -> Z * Z).

Lemma bio_loop_cons (word : string) (bio_words : list string)
    (st : list string * string) :
  bio_loop getTextSize (word :: bio_words) st
  = bio_loop getTextSize bio_words (bio_step getTextSize st word).
Proof. reflexivity. Qed.

(** The lines already in the list are never touched again. *)
Lemma bio_loop_prefix (pre : list string) (bio_words : list string) :
  forall lines cur,
    bio_loop getTextSize bio_words (pre ++ lines, cur)
    = (pre ++ fst (bio_loop getTextSize bio_words (lines, cur)),
       snd (bio_loop getTextSize bio_words (lines, cur))).
Proof.
  induction bio_words as [|w ws IH]; intros lines cur; [reflexivity |].
  rewrite !bio_loop_cons. unfold bio_step.
  destruct (_ && _).
  - rewrite <- app_assoc. apply IH.
  - apply IH.
Qed.

Lemma bio_flush_prefix (pre lines : list string) (cur : string) :
  bio_flush (pre ++ lines, cur) = pre ++ bio_flush (lines, cur).
Proof.
  unfold bio_flush. destruct (truthy cur); [now rewrite app_assoc | reflexivity].
Qed.

(** The annotation lines are the two header lines followed by the lines
    of the wrapper. *)
Lemma lines_for_annotation_eq (format_score : pyfloat -> string)
    (name : string) (score : pyfloat) (bio : string) :
  lines_for_annotation getTextSize format_score name score bio
  = ("Name: " +:+ name) :: ("Score: " +:+ format_score score)
      :: wrap_bio getTextSize bio.
Proof.
  unfold lines_for_annotation, wrap_bio.
  pose proof (bio_loop_prefix
                ["Name: " +:+ name; "Score: " +:+ format_score score]
                (split " " bio) [] "Bio:") as H.
  rewrite app_nil_r in H. rewrite H.
  destruct (bio_loop getTextSize (split " " bio) ([], "Bio:")) as [ls c].
  cbn [fst snd]. now rewrite bio_flush_prefix.
Qed.

Lemma bio_step_head (st : list string * string) (word : string) :
  bio_head_inv st -> bio_head_inv (bio_step getTextSize st word).
Proof.
  destruct st as [[|l ls] cur]; unfold bio_head_inv, bio_step;
    cbn [fst snd]; intros H; destruct (_ && _); cbn [fst snd app]; auto.
  apply PyStrFacts.startswith_Bio_strip.
  now apply PyStrFacts.startswith_app.
Qed.

Lemma bio_loop_head (bio_words : list string) :
  forall st, bio_head_inv st -> bio_head_inv (bio_loop getTextSize bio_words st).
Proof.
  induction bio_words as [|w ws IH]; intros st H; [exact H |].
  rewrite bio_loop_cons. apply IH. now apply bio_step_head.
Qed.

Lemma wrap_bio_head (bio : string) :
  exists line rest,
    wrap_bio getTextSize bio = line :: rest /\ startswith "Bio:" line = true.
Proof.
  unfold wrap_bio.
  pose proof (bio_loop_head (split " " bio) ([], "Bio:") eq_refl) as H.
  destruct (bio_loop getTextSize (split " " bio) ([], "Bio:")) as [[|l ls] c];
    unfold bio_head_inv in H; cbn [fst snd] in H; unfold bio_flush.
  - rewrite (PyStrFacts.startswith_truthy _ H). now exists c, [].
  - destruct (truthy c); eauto.
Qed.

(** An empty bio still gives the line of the prefix. *)
Lemma wrap_bio_empty : wrap_bio getTextSize "" = ["Bio:"].
Proof.
  unfold wrap_bio, bio_loop. cbn [split fold_left]. unfold bio_step.
  change (strip ("Bio:" +:+ " " +:+ "")) with "Bio:".
  change (String.eqb "Bio:" "Bio:") with true.
  cbn [negb]. rewrite andb_false_r. reflexivity.
Qed.

(** *** Widths of the returned lines *)

Lemma bio_step_widths (bio_words : list string) (st : list string * string)
    (word : string) :
  Forall (fun word => strip word <> "Bio:") bio_words ->
  In word bio_words ->
  widths_inv getTextSize bio_words st ->
  widths_inv getTextSize bio_words (bio_step getTextSize st word).
Proof.
  intros Hbio Hin. rewrite List.Forall_forall in Hbio.
  destruct st as [[|first rest] cur]; unfold widths_inv, bio_step;
    cbn [fst snd];
    destruct (Z.gtb_spec (fst (getTextSize (strip (cur +:+ " " +:+ word))))
                text_block_max_width) as [Hgt|Hle];
    destruct (String.eqb_spec cur "Bio:") as [->|Hne];
    cbn [andb negb fst snd app].
  - intros _. right. right. now exists word.
  - intros Hcur. split; [exact Hcur |]. split; [constructor |].
    split; [now right | now apply Hbio].
  - intros _. now left.
  - intros _. now left.
  - intros (_ & _ & _ & Hcur). now contradiction Hcur.
  - intros (Hfirst & Hrest & Hcur & _). split; [exact Hfirst |].
    split; [apply Forall_app; split; [exact Hrest | now constructor] |].
    split; [now right | now apply Hbio].
  - intros (_ & _ & _ & Hcur). now contradiction Hcur.
  - intros (Hfirst & Hrest & _ & Hcur). split; [exact Hfirst |].
    split; [exact Hrest |]. split; [now left |].
    rewrite PyStrFacts.strip_idem.
    intros [H|H]%PyStrFacts.strip_join_Bio; [now apply Hcur |].
    now apply (Hbio word Hin).
Qed.

Lemma bio_loop_widths (bio_words : list string) :
  Forall (fun word => strip word <> "Bio:") bio_words ->
  forall todo st,
    incl todo bio_words ->
    widths_inv getTextSize bio_words st ->
    widths_inv getTextSize bio_words (bio_loop getTextSize todo st).
Proof.
  intros Hbio todo. induction todo as [|w ws IH]; intros st Hin Hst.
  - exact Hst.
  - rewrite bio_loop_cons. apply IH.
    + intros x Hx. apply Hin. now right.
    + apply bio_step_widths; [exact Hbio | apply Hin; now left | exact Hst].
Qed.

(** C3 (amended).  The wrapper appends the next token to the current line
    unless the measured candidate line exceeds the width budget and the
    current line differs from the bare prefix ["Bio:"]; in that case the
    current line is flushed to the output and a new line starts with the
    token.  Consequently, when no token of the text reads ["Bio:"], no
    returned line measures wider than the budget other than a line that
    holds a single token: on the first line the prefix followed by one
    token (or the prefix alone), on a later line one token alone. *)
Theorem wrap_bio_widths (bio : string) :
  Forall (fun word => strip word <> "Bio:") (split " " bio) ->
  (forall lines cur word,
     let test_line := strip (cur +:+ " " +:+ word) in
     bio_step getTextSize (lines, cur) word
     = if (fst (getTextSize test_line) >? text_block_max_width)
          && negb (String.eqb cur "Bio:")
       then (lines ++ [cur], word)
       else (lines, test_line)) /\
  exists first rest,
    wrap_bio getTextSize bio = first :: rest
    /\ (fits getTextSize first \/ prefix_line (split " " bio) first)
    /\ Forall
         (fun line => fits getTextSize line \/ In line (split " " bio))
         rest.
Proof.
  intros Hbio. split; [reflexivity |].
  unfold wrap_bio.
  pose proof (bio_loop_widths (split " " bio) Hbio (split " " bio)
                ([], "Bio:") (fun x Hx => Hx)
                (or_intror (or_introl eq_refl))) as Hinv.
  pose proof (bio_loop_head (split " " bio) ([], "Bio:") eq_refl) as Hhead.
  destruct (bio_loop getTextSize (split " " bio) ([], "Bio:"))
    as [[|first rest] cur];
    unfold widths_inv in Hinv; unfold bio_head_inv in Hhead;
    cbn [fst snd] in Hinv, Hhead; unfold bio_flush.
  - rewrite (PyStrFacts.startswith_truthy _ Hhead).
    exists cur, []. split; [reflexivity |]. split; [exact Hinv | constructor].
  - destruct Hinv as (Hfirst & Hrest & Hcur & _).
    destruct (truthy cur).
    + exists first, (rest ++ [cur]). split; [reflexivity |].
      split; [exact Hfirst |].
      apply Forall_app. split; [exact Hrest | now constructor].
    + now exists first, rest.
Qed.

(** *** Round trip *)










End WrapperFacts.

(** ** Overlap and placement *)

Section PlacementFacts.

(** C9.  [check_overlap] is true exactly when none of the four separation
    conditions holds, that is, when the projections overlap strictly on
    both axes; it is symmetric; and rectangles that only share a boundary
    coordinate do not overlap. *)
Theorem check_overlap_strict (x1_1 y1_1 x2_1 y2_1 x1_2 y1_2 x2_2 y2_2 : Z) :
  let rect1 := (x1_1, y1_1, x2_1, y2_1) in
  let rect2 := (x1_2, y1_2, x2_2, y2_2) in
  (check_overlap rect1 rect2 = true <->
   ~ (x1_1 >= x2_2 \/ x2_1 <= x1_2 \/ y1_1 >= y2_2 \/ y2_1 <= y1_2)) /\
  (check_overlap rect1 rect2 = true <->
   x1_1 < x2_2 /\ x1_2 < x2_1 /\ y1_1 < y2_2 /\ y1_2 < y2_1) /\
  check_overlap rect1 rect2 = check_overlap rect2 rect1 /\
  (x2_1 = x1_2 \/ x1_1 = x2_2 \/ y2_1 = y1_2 \/ y1_1 = y2_2 ->
   check_overlap rect1 rect2 = false).
Proof.
  cbn zeta. unfold check_overlap.
  destruct (Z.geb_spec x1_1 x2_2), (Z.leb_spec x2_1 x1_2),
    (Z.geb_spec y1_1 y2_2), (Z.leb_spec y2_1 y1_2),
    (Z.geb_spec x1_2 x2_1), (Z.leb_spec x2_2 x1_1),
    (Z.geb_spec y1_2 y2_1), (Z.leb_spec y2_2 y1_1);
    cbn [orb]; repeat split; intros; try reflexivity; try discriminate;
    try lia.
Qed.

(** The rectangles of the specification: they share the edge [x = 10]. *)
Lemma check_overlap_strict_witness :
  check_overlap (0, 0, 10, 10) (10, 0, 20, 10) = false.
Proof.
  apply (check_overlap_strict 0 0 10 10 10 0 20 10). left. reflexivity.
Defined.

Lemma is_overlapping_false (r : rect) (occupied : list rect) :
  is_overlapping r occupied = false
  <-> Forall (fun o => check_overlap r o = false) occupied.
Proof.
  induction occupied as [|o occ IH]; cbn [is_overlapping].
  - split; [constructor | reflexivity].
  - rewrite Forall_cons_iff, <- IH.
    destruct (check_overlap r o); intuition congruence.
Qed.

Lemma accepted_dec tw th W H occ c :
  accepted tw th W H occ c \/ ~ accepted tw th W H occ c.
Proof.
  unfold accepted. rewrite <- is_overlapping_false.
  destruct (candidate_rect c tw th) as [[[x1 y1] x2] y2]. cbn [in_canvas].
  destruct (is_overlapping (x1, y1, x2, y2) occ);
    [right; intros [_ ?]; discriminate |].
  destruct (Z_lt_le_dec x1 0); [right; lia |].
  destruct (Z_lt_le_dec y1 0); [right; lia |].
  destruct (Z_lt_le_dec W x2); [right; lia |].
  destruct (Z_lt_le_dec H y2); [right; lia |].
  left. repeat split; assumption.
Qed.

Lemma search_cons_accepted tw th W H occ c rest :
  accepted tw th W H occ c ->
  search_candidates (c :: rest) tw th W H occ = Some c.
Proof.
  unfold accepted. rewrite <- is_overlapping_false. cbn [search_candidates].
  destruct (candidate_rect c tw th) as [[[x1 y1] x2] y2]. cbn [in_canvas].
  intros [(H1 & H2 & H3 & H4) ->].
  destruct (Z.ltb_spec x1 0), (Z.ltb_spec y1 0), (Z.gtb_spec x2 W),
    (Z.gtb_spec y2 H); cbn [orb]; try lia. reflexivity.
Qed.

Lemma search_cons_rejected tw th W H occ c rest :
  ~ accepted tw th W H occ c ->
  search_candidates (c :: rest) tw th W H occ
  = search_candidates rest tw th W H occ.
Proof.
  unfold accepted. rewrite <- is_overlapping_false. cbn [search_candidates].
  destruct (candidate_rect c tw th) as [[[x1 y1] x2] y2]. cbn [in_canvas].
  intros Hrej.
  destruct (Z.ltb_spec x1 0), (Z.ltb_spec y1 0), (Z.gtb_spec x2 W),
    (Z.gtb_spec y2 H); cbn [orb]; try reflexivity.
  destruct (is_overlapping (x1, y1, x2, y2) occ); [reflexivity |].
  exfalso. apply Hrej. repeat split; (lia || reflexivity).
Qed.

Lemma search_app_rejected tw th W H occ pre rest :
  Forall (fun c => ~ accepted tw th W H occ c) pre ->
  search_candidates (pre ++ rest) tw th W H occ
  = search_candidates rest tw th W H occ.
Proof.
  induction 1 as [|c pre Hc _ IH]; [reflexivity |].
  cbn [app]. now rewrite search_cons_rejected.
Qed.

(** The search returns the first accepted candidate of the list, and
    nothing when every candidate is rejected. *)
Lemma search_candidates_first tw th W H occ cands :
  match search_candidates cands tw th W H occ with
  | Some c =>
      exists pre post, cands = pre ++ c :: post
        /\ accepted tw th W H occ c
        /\ Forall (fun c' => ~ accepted tw th W H occ c') pre
  | None => Forall (fun c' => ~ accepted tw th W H occ c') cands
  end.
Proof.
  induction cands as [|c rest IH]; [constructor |].
  destruct (accepted_dec tw th W H occ c) as [Ha|Hr].
  - rewrite search_cons_accepted by assumption.
    exists [], rest. split; [reflexivity | split; [assumption | constructor]].
  - rewrite search_cons_rejected by assumption.
    destruct (search_candidates rest tw th W H occ) as [c'|].
    + destruct IH as (pre & post & -> & Ha & Hpre).
      exists (c :: pre), post.
      split; [reflexivity | split; [assumption | now constructor]].
    + now constructor.
Qed.

Lemma find_position_accepted (bbox : Z * Z * Z * Z)
    (text_w text_h img_w img_h : Z) (occupied : list rect) (pos : Z * Z) :
  find_position bbox text_w text_h img_w img_h occupied = Some pos ->
  accepted text_w text_h img_w img_h occupied pos.
Proof.
  unfold find_position. intros Hfind.
  pose proof (search_candidates_first text_w text_h img_w img_h occupied
                (candidate_positions bbox text_w text_h)) as Hfirst.
  rewrite Hfind in Hfirst. destruct Hfirst as (_ & _ & _ & Hacc & _).
  exact Hacc.
Qed.

(** C6.  Whenever the placement search returns a position, the padded
    background rectangle of the block at that position lies within
    [[0,canvas_w]x[0,canvas_h]]. *)
Theorem find_position_in_canvas (bbox : Z * Z * Z * Z)
    (text_w text_h img_w img_h : Z) (occupied : list rect) (pos : Z * Z) :
  find_position bbox text_w text_h img_w img_h occupied = Some pos ->
  in_canvas img_w img_h (candidate_rect pos text_w text_h).
Proof. intros Hfind. now apply find_position_accepted in Hfind as [Hin _]. Qed.

(** The first scenario of the specification: a free canvas. *)
Lemma find_position_in_canvas_witness :
  in_canvas 1024 768 (candidate_rect (185, 100) 120 50).
Proof.
  apply (find_position_in_canvas (100, 100, 80, 80) 120 50 1024 768 []).
  reflexivity.
Defined.

(** C1 (amended).  The search tries exactly six candidate positions in the
    fixed order right (top-aligned), left (top-aligned), below
    (left-aligned), above (left-aligned), below (centred), above (centred),
    with coordinates offset by the margin from the anchor.  A candidate is
    the position at which the text starts: the padded background rectangle
    of the block has its top-left corner 5 pixels to the left of and above
    the candidate.  The search returns the first candidate whose padded
    rectangle stays inside the canvas and overlaps no registered region,
    and returns nothing when all six are rejected. *)
Theorem find_position_first_accepted (qr_x qr_y qr_w qr_h : Z)
    (text_w text_h img_w img_h : Z) (occupied : list rect) :
  let bbox := (qr_x, qr_y, qr_w, qr_h) in
  let rejected c := ~ accepted text_w text_h img_w img_h occupied c in
  candidate_positions bbox text_w text_h
  = [ (qr_x + qr_w + qr_box_padding, qr_y);
      (qr_x - text_w - qr_box_padding, qr_y);
      (qr_x, qr_y + qr_h + qr_box_padding);
      (qr_x, qr_y - text_h - qr_box_padding);
      (qr_x + qr_w / 2 - text_w / 2, qr_y + qr_h + qr_box_padding);
      (qr_x + qr_w / 2 - text_w / 2, qr_y - text_h - qr_box_padding) ] /\
  (forall cand_x cand_y,
     candidate_rect (cand_x, cand_y) text_w text_h
     = (cand_x - padding, cand_y - padding,
        cand_x - padding + text_w, cand_y - padding + text_h)) /\
  (forall pos,
     find_position bbox text_w text_h img_w img_h occupied = Some pos <->
     exists pre post,
       candidate_positions bbox text_w text_h = pre ++ pos :: post
       /\ accepted text_w text_h img_w img_h occupied pos
       /\ Forall rejected pre) /\
  (find_position bbox text_w text_h img_w img_h occupied = None <->
   Forall rejected (candidate_positions bbox text_w text_h)).
Proof.
  intros bbox rejected. split; [reflexivity |]. split.
  { intros cx cy. unfold candidate_rect, padding. repeat f_equal; lia. }
  unfold find_position.
  pose proof (search_candidates_first text_w text_h img_w img_h occupied
                (candidate_positions bbox text_w text_h)) as Hfirst.
  split.
  - intros pos. split.
    + intros Hfind. rewrite Hfind in Hfirst. exact Hfirst.
    + intros (pre & post & -> & Hacc & Hpre).
      rewrite search_app_rejected by exact Hpre.
      now apply search_cons_accepted.
  - split.
    + intros Hfind. rewrite Hfind in Hfirst. exact Hfirst.
    + intros Hall.
      destruct (search_candidates _ _ _ _ _ _) as [c|]; [| reflexivity].
      destruct Hfirst as (pre & post & Heq & Hacc & _). exfalso.
      rewrite Heq in Hall. apply Forall_app in Hall as [_ Hall].
      apply Forall_cons_iff in Hall as [Hrej _]. now apply Hrej.
Qed.

(** Two anchors of the second scenario: the first block occupies the
    right of the second anchor, whose block goes below it. *)
Lemma find_position_first_accepted_witness :
  find_position (70, 70, 60, 60) 120 50 1024 768 [(110, 45, 230, 95)]
  = Some (70, 135).
Proof.
  apply (find_position_first_accepted 70 70 60 60 120 50 1024 768
           [(110, 45, 230, 95)]).
  exists [(135, 70); (-55, 70)], [(70, 15); (40, 135); (40, 15)].
  split; [reflexivity |]. split.
  - split; [cbn; lia | repeat constructor].
  - repeat constructor.
    + intros [_ Hov]. apply Forall_cons_iff in Hov as [Hov _]. discriminate.
    + intros [Hin _]. cbn in Hin. lia.
Defined.

(** *** The fallback position *)

Lemma fallback_position_clamped (qr_x qr_y qr_w qr_h : Z)
    (text_w text_h img_w img_h : Z) :
  let pos :=
    fallback_position (qr_x, qr_y, qr_w, qr_h) text_w text_h img_w img_h in
  (5 <= fst pos /\ 5 <= snd pos) /\
  (text_w <= img_w -> fst pos + text_w - 5 <= img_w) /\
  (text_h <= img_h -> snd pos + text_h - 5 <= img_h) /\
  (in_canvas img_w img_h
     (candidate_rect (qr_x + qr_w + qr_box_padding, qr_y + 5) text_w text_h) ->
   pos = (qr_x + qr_w + qr_box_padding, qr_y + 5)).
Proof.
  cbn zeta. unfold fallback_position, candidate_rect, in_canvas, qr_box_padding.
  cbn [fst snd].
  destruct (Z.gtb_spec (qr_x + qr_w + 5 + text_w - 5) img_w);
    destruct (Z.gtb_spec (qr_y + 5 + text_h - 5) img_h);
    repeat match goal with
      | |- context [Z.ltb ?a 5] => destruct (Z.ltb_spec a 5)
      end; cbn [fst snd];
    (repeat split; try lia);
    intros; try (f_equal; lia).
Qed.

Lemma final_text_position_id (x y : Z) :
  5 <= x -> 5 <= y -> final_text_position (x, y) = (x, y).
Proof.
  intros Hx Hy. unfold final_text_position.
  destruct (Z.ltb_spec (y - 5) 0), (Z.ltb_spec (x - 5) 0);
    try lia; reflexivity.
Qed.

(** The last adjustment of lines 268-278 never changes the position. *)
Lemma final_text_position_best (bbox : Z * Z * Z * Z)
    (text_w text_h img_w img_h : Z) (occupied : list rect) :
  final_text_position
    (best_position bbox text_w text_h img_w img_h occupied)
  = best_position bbox text_w text_h img_w img_h occupied.
Proof.
  unfold best_position.
  destruct (find_position bbox text_w text_h img_w img_h occupied)
    as [[x y]|] eqn:Hfind.
  - apply find_position_accepted in Hfind as [Hin _]. cbn in Hin.
    apply final_text_position_id; lia.
  - destruct bbox as [[[qr_x qr_y] qr_w] qr_h].
    pose proof (fallback_position_clamped qr_x qr_y qr_w qr_h
                  text_w text_h img_w img_h) as [[Hx Hy] _].
    destruct (fallback_position _ _ _ _ _) as [x y].
    now apply final_text_position_id.
Qed.

End PlacementFacts.

(** ** The text block and the pass *)

Section PassFacts.

Context (getTextSize : string -> Z * Z) (format_score : pyfloat -> string).

Lemma max_line_width_from (text_lines : list string) :
  forall acc acc0,
    acc0 <= acc ->
    acc0 <= fold_left
      (fun actual_max_line_width line =>
         let line_w := fst (getTextSize line) in
         if line_w >? actual_max_line_width then line_w
         else actual_max_line_width)
      text_lines acc.
Proof.
  induction text_lines as [|l ls IH]; intros acc acc0 Hacc; [exact Hacc |].
  cbn [fold_left]. apply IH. cbn zeta.
  destruct (Z.gtb_spec (fst (getTextSize l)) acc); lia.
Qed.

Lemma max_line_width_nonneg (text_lines : list string) :
  0 <= max_line_width getTextSize text_lines.
Proof. unfold max_line_width. apply max_line_width_from. lia. Qed.

(** The dimensions of a non-empty block. *)
Lemma get_text_block_dimensions_cons (l : string) (ls : list string) :
  get_text_block_dimensions getTextSize (l :: ls)
  = (Z.min (max_line_width getTextSize (l :: ls)) text_block_max_width + 10,
     Z.of_nat (length (l :: ls)) * (snd (getTextSize "Tg") + 5) + 5).
Proof. unfold get_text_block_dimensions, padding. f_equal; lia. Qed.

(** The rectangle that [draw_multiline_text_with_background] returns is
    the candidate rectangle of its position. *)
Lemma draw_multiline_rect (img : list draw_op) (l : string)
    (ls : list string) (pos : Z * Z) (fc bc : color) :
  snd (draw_multiline_text_with_background getTextSize img (l :: ls) pos fc bc)
  = candidate_rect pos
      (fst (get_text_block_dimensions getTextSize (l :: ls)))
      (snd (get_text_block_dimensions getTextSize (l :: ls))).
Proof.
  rewrite get_text_block_dimensions_cons. destruct pos as [x y].
  unfold draw_multiline_text_with_background, candidate_rect, padding.
  cbn [fst snd]. repeat f_equal; lia.
Qed.

Lemma draw_multiline_image (img : list draw_op) (l : string)
    (ls : list string) (pos : Z * Z) (fc bc : color) :
  exists op ops,
    fst (draw_multiline_text_with_background getTextSize img (l :: ls) pos fc bc)
    = img ++ op :: ops.
Proof.
  destruct pos as [x y]. unfold draw_multiline_text_with_background.
  cbn [fst]. eauto.
Qed.

(** The block of an annotation is at least 10 pixels wide and, text
    heights being non-negative, at least 20 pixels high. *)
Lemma annotation_block_positive (name : string) (score : pyfloat)
    (bio : string) :
  0 <= snd (getTextSize "Tg") ->
  let lines := lines_for_annotation getTextSize format_score name score bio in
  10 <= fst (get_text_block_dimensions getTextSize lines)
  /\ 20 <= snd (get_text_block_dimensions getTextSize lines)
  /\ (3 <= length lines)%nat.
Proof.
  intros Hh lines. subst lines. rewrite lines_for_annotation_eq.
  destruct (wrap_bio_head getTextSize bio) as (l3 & rest & -> & _).
  rewrite get_text_block_dimensions_cons. cbn [fst snd length].
  pose proof (max_line_width_nonneg
                (("Name: " +:+ name) :: ("Score: " +:+ format_score score)
                   :: l3 :: rest)) as Hw.
  unfold text_block_max_width. repeat split; [lia | nia | lia].
Qed.

(** C10 (amended).  For every processed item the annotation has at least
    three lines: the first starts with ["Name:"], the second with
    ["Score:"] and the third with ["Bio:"]; the lines after the third, if
    any, continue a wrapped bio.  So the list of lines is never empty,
    the measured width and height of the block are strictly positive (text
    heights reported by OpenCV being non-negative), and the test that
    skips a block of zero width or height is never true. *)
Theorem lines_for_annotation_three (profiles_data : gmap string profile)
    (profile_id : string) (score : pyfloat) :
  0 <= snd (getTextSize "Tg") ->
  let lines :=
    lines_for_annotation getTextSize format_score
      (name_to_display profiles_data profile_id) score
      (bio_to_display profiles_data profile_id) in
  let text_w := fst (get_text_block_dimensions getTextSize lines) in
  let text_h := snd (get_text_block_dimensions getTextSize lines) in
  (exists l1 l2 l3 rest,
     lines = l1 :: l2 :: l3 :: rest
     /\ startswith "Name:" l1 = true
     /\ startswith "Score:" l2 = true
     /\ startswith "Bio:" l3 = true) /\
  lines <> [] /\ (3 <= length lines)%nat /\
  0 < text_w /\ 0 < text_h /\
  (text_w =? 0) || (text_h =? 0) = false.
Proof.
  intros Hh lines text_w text_h.
  destruct (annotation_block_positive
              (name_to_display profiles_data profile_id) score
              (bio_to_display profiles_data profile_id) Hh)
    as (Hw & Hht & Hlen).
  fold lines text_w text_h in Hw, Hht, Hlen.
  assert (exists l3 rest,
            lines = ("Name: " +:+ name_to_display profiles_data profile_id)
                      :: ("Score: " +:+ format_score score) :: l3 :: rest
            /\ startswith "Bio:" l3 = true) as (l3 & rest & Hlines & Hbio).
  { subst lines. rewrite lines_for_annotation_eq.
    destruct (wrap_bio_head getTextSize
                (bio_to_display profiles_data profile_id))
      as (l3 & rest & -> & Hbio). eauto. }
  repeat apply conj.
  - exists ("Name: " +:+ name_to_display profiles_data profile_id),
      ("Score: " +:+ format_score score), l3, rest.
    split; [exact Hlines |]. split; [| split; [| exact Hbio]].
    + apply PyStrFacts.startswith_spec.
      exists (" " +:+ name_to_display profiles_data profile_id). reflexivity.
    + apply PyStrFacts.startswith_spec.
      exists (" " +:+ format_score score). reflexivity.
  - rewrite Hlines. discriminate.
  - exact Hlen.
  - lia.
  - lia.
  - apply orb_false_iff. split; apply Z.eqb_neq; lia.
Qed.

(** Every detection of the map carries its id and a bounding box, so the
    pass never looks up a missing key. *)
Lemma detections_map_bbox (all_detections : list detection)
    (profile_id : string) (det : detection) :
  detections_map all_detections !! profile_id = Some det ->
  det_id det = Some profile_id /\ is_Some (det_bbox det).
Proof.
  unfold detections_map.
  assert (forall dets (m : gmap string detection),
            (forall i d, m !! i = Some d ->
                         det_id d = Some i /\ is_Some (det_bbox d)) ->
            forall i d,
              fold_left
                (fun m det =>
                   match det_id det, det_bbox det with
                   | Some i, Some _ => <[i := det]> m
                   | _, _ => m
                   end) dets m !! i = Some d ->
              det_id d = Some i /\ is_Some (det_bbox d)) as Hgen.
  { induction dets as [|d0 dets IH]; intros m Hm i d; [apply Hm |].
    cbn [fold_left]. apply IH. clear i d. intros i d.
    destruct (det_id d0) as [i0|] eqn:Hid; [| apply Hm].
    destruct (det_bbox d0) as [b0|] eqn:Hb; [| apply Hm].
    destruct (decide (i0 = i)) as [->|Hne].
    - rewrite lookup_insert_eq. intros [= <-]. rewrite Hb. eauto.
    - rewrite lookup_insert_ne by assumption. apply Hm. }
  apply Hgen. intros i d. rewrite lookup_empty. discriminate.
Qed.

(** *** One iteration of the pass *)

Lemma annotate_profile_absent (img_w img_h : Z)
    (dets : gmap string detection) (profiles_data : gmap string profile)
    (st : pass_state) (profile_id : string) (score : pyfloat) :
  dets !! profile_id = None ->
  annotate_profile getTextSize format_score img_w img_h dets profiles_data
    st (profile_id, score) = st.
Proof. intros H. unfold annotate_profile. now rewrite H. Qed.

(** What a processed item does to the image and to the occupied regions:
    the anchor box is drawn, and unless the block has zero width or
    height, the block is drawn and its rectangle registered. *)
Lemma annotate_profile_present (img_w img_h : Z)
    (dets : gmap string detection) (profiles_data : gmap string profile)
    (st : pass_state) (profile_id : string) (score : pyfloat)
    (det : detection) (qr_x qr_y qr_w qr_h : Z) :
  dets !! profile_id = Some det ->
  det_bbox det = Some (qr_x, qr_y, qr_w, qr_h) ->
  let lines :=
    lines_for_annotation getTextSize format_score
      (name_to_display profiles_data profile_id) score
      (bio_to_display profiles_data profile_id) in
  let text_w := fst (get_text_block_dimensions getTextSize lines) in
  let text_h := snd (get_text_block_dimensions getTextSize lines) in
  let st' :=
    annotate_profile getTextSize format_score img_w img_h dets profiles_data
      st (profile_id, score) in
  let box :=
    Rectangle (qr_x, qr_y) (qr_x + qr_w, qr_y + qr_h)
      (get_color_for_relevance score) box_thickness in
  if (text_w =? 0) || (text_h =? 0)
  then image st' = image st ++ [box]
       /\ occupied_regions st' = occupied_regions st
  else (exists op ops, image st' = image st ++ box :: op :: ops)
       /\ occupied_regions st'
          = occupied_regions st
              ++ [candidate_rect
                    (best_position (qr_x, qr_y, qr_w, qr_h) text_w text_h
                       img_w img_h (occupied_regions st))
                    text_w text_h].
Proof.
  intros Hdet Hbbox lines text_w text_h st' box.
  subst st'. unfold annotate_profile. rewrite Hdet, Hbbox.
  fold lines.
  destruct (get_text_block_dimensions getTextSize lines) as [tw th] eqn:Hdim.
  subst text_w text_h. cbn [fst snd].
  destruct ((tw =? 0) || (th =? 0)); [now split |].
  rewrite final_text_position_best.
  assert (exists l ls, lines = l :: ls) as (l & ls & Hlines).
  { subst lines. rewrite lines_for_annotation_eq. eauto. }
  rewrite Hlines in *.
  pose proof (draw_multiline_rect
                (image st ++ [box]) l ls
                (best_position (qr_x, qr_y, qr_w, qr_h) tw th img_w img_h
                   (occupied_regions st)) font_color text_bg_color) as Hrect.
  destruct (draw_multiline_image
              (image st ++ [box]) l ls
              (best_position (qr_x, qr_y, qr_w, qr_h) tw th img_w img_h
                 (occupied_regions st)) font_color text_bg_color)
    as (op & ops & Himg).
  subst box.
  destruct (draw_multiline_text_with_background _ _ _ _ _ _) as [img2 r].
  cbn [fst snd image occupied_regions] in *. rewrite Hdim in Hrect.
  cbn [fst snd] in Hrect. subst r. split; [| reflexivity].
  exists op, ops. rewrite Himg. now rewrite <- app_assoc.
Qed.

(** The position of a block that fits the canvas gives a rectangle within
    the canvas, on the search path and on the fallback path. *)
Lemma best_position_in_canvas (bbox : Z * Z * Z * Z)
    (text_w text_h img_w img_h : Z) (occupied : list rect) :
  text_w <= img_w -> text_h <= img_h ->
  in_canvas img_w img_h
    (candidate_rect
       (best_position bbox text_w text_h img_w img_h occupied)
       text_w text_h).
Proof.
  intros Hw Hh. unfold best_position.
  destruct (find_position bbox text_w text_h img_w img_h occupied)
    as [pos|] eqn:Hfind.
  - now apply find_position_accepted in Hfind as [Hin _].
  - destruct bbox as [[[qr_x qr_y] qr_w] qr_h].
    pose proof (fallback_position_clamped qr_x qr_y qr_w qr_h
                  text_w text_h img_w img_h) as ([Hx Hy] & Hr & Hb & _).
    destruct (fallback_position _ _ _ _ _) as [x y].
    cbn [fst snd] in *. cbn. lia.
Qed.

Lemma annotate_from_cons (img_w img_h : Z)
    (dets : gmap string detection) (profiles_data : gmap string profile)
    (item : string * pyfloat) (rest : list (string * pyfloat))
    (st : pass_state) :
  annotate_from getTextSize format_score img_w img_h dets profiles_data
    (item :: rest) st
  = annotate_from getTextSize format_score img_w img_h dets profiles_data
      rest
      (annotate_profile getTextSize format_score img_w img_h dets
         profiles_data st item).
Proof. reflexivity. Qed.

Lemma annotate_from_in_canvas (img_w img_h : Z)
    (dets : gmap string detection) (profiles_data : gmap string profile)
    (ranked_profiles : list (string * pyfloat)) :
  (forall profile_id score det,
     In (profile_id, score) ranked_profiles ->
     dets !! profile_id = Some det ->
     let lines :=
       lines_for_annotation getTextSize format_score
         (name_to_display profiles_data profile_id) score
         (bio_to_display profiles_data profile_id) in
     fst (get_text_block_dimensions getTextSize lines) <= img_w
     /\ snd (get_text_block_dimensions getTextSize lines) <= img_h) ->
  forall st,
    Forall (in_canvas img_w img_h) (occupied_regions st) ->
    Forall (in_canvas img_w img_h)
      (occupied_regions
         (annotate_from getTextSize format_score img_w img_h dets
            profiles_data ranked_profiles st)).
Proof.
  induction ranked_profiles as [|[profile_id score] rest IH];
    intros Hfit st Hst; [exact Hst |].
  rewrite annotate_from_cons. apply IH.
  { intros i sc d Hin. apply Hfit. now right. }
  destruct (dets !! profile_id) as [det|] eqn:Hdet;
    [| now rewrite annotate_profile_absent].
  destruct (det_bbox det) as [[[[qr_x qr_y] qr_w] qr_h]|] eqn:Hbbox.
  - pose proof (annotate_profile_present img_w img_h dets profiles_data st
                  profile_id score det qr_x qr_y qr_w qr_h Hdet Hbbox) as Hp.
    cbn zeta in Hp.
    destruct (Hfit profile_id score det (or_introl eq_refl) Hdet) as [Hw Hh].
    destruct (_ || _).
    + destruct Hp as [_ ->]. exact Hst.
    + destruct Hp as [_ ->]. apply Forall_app. split; [exact Hst |].
      constructor; [| constructor]. now apply best_position_in_canvas.
  - unfold annotate_profile. rewrite Hdet, Hbbox. exact Hst.
Qed.

(** C2 (amended).  For every ordered list of ranked items, all
    detections, label contents and canvas sizes such that the text block
    of every processed item is no wider and no taller than the canvas, at
    the end of the pass every rectangle registered in the occupied regions
    lies within [[0,W]x[0,H]], whether it was placed by the search or by
    the fallback. *)
Theorem occupied_regions_in_canvas (img_w img_h : Z)
    (ranked_profiles : list (string * pyfloat))
    (all_detections : list detection) (profiles_data : gmap string profile) :
  (forall profile_id score det,
     In (profile_id, score) ranked_profiles ->
     detections_map all_detections !! profile_id = Some det ->
     let lines :=
       lines_for_annotation getTextSize format_score
         (name_to_display profiles_data profile_id) score
         (bio_to_display profiles_data profile_id) in
     fst (get_text_block_dimensions getTextSize lines) <= img_w
     /\ snd (get_text_block_dimensions getTextSize lines) <= img_h) ->
  Forall (in_canvas img_w img_h)
    (occupied_regions
       (annotate_image getTextSize format_score img_w img_h ranked_profiles
          all_detections profiles_data)).
Proof.
  intros Hfit. unfold annotate_image.
  apply annotate_from_in_canvas; [exact Hfit | constructor].
Qed.

(** C5 (amended).  Whenever all six candidates are rejected for an item,
    the block is placed to the right of the anchor, 5 pixels below its
    top, and then moved left or up until its right and bottom edges are
    within the canvas, but never so far that its left or top edge becomes
    negative: the left and top edges of the resulting rectangle are never
    negative, and its right and bottom edges do not exceed the canvas when
    the block is no wider and no taller than the canvas.  The rectangle is
    registered in the occupied regions, which the following items read. *)
Theorem fallback_clamped_and_registered (img_w img_h : Z)
    (dets : gmap string detection) (profiles_data : gmap string profile)
    (st : pass_state) (profile_id : string) (score : pyfloat)
    (det : detection) (qr_x qr_y qr_w qr_h : Z) :
  0 <= snd (getTextSize "Tg") ->
  dets !! profile_id = Some det ->
  det_bbox det = Some (qr_x, qr_y, qr_w, qr_h) ->
  let lines :=
    lines_for_annotation getTextSize format_score
      (name_to_display profiles_data profile_id) score
      (bio_to_display profiles_data profile_id) in
  let text_w := fst (get_text_block_dimensions getTextSize lines) in
  let text_h := snd (get_text_block_dimensions getTextSize lines) in
  find_position (qr_x, qr_y, qr_w, qr_h) text_w text_h img_w img_h
    (occupied_regions st) = None ->
  let x := Z.max 5 (Z.min (qr_x + qr_w + qr_box_padding) (img_w - text_w + 5)) in
  let y := Z.max 5 (Z.min (qr_y + 5) (img_h - text_h + 5)) in
  let st' :=
    annotate_profile getTextSize format_score img_w img_h dets profiles_data
      st (profile_id, score) in
  fallback_position (qr_x, qr_y, qr_w, qr_h) text_w text_h img_w img_h
  = (x, y) /\
  occupied_regions st'
  = occupied_regions st ++ [(x - 5, y - 5, x + text_w - 5, y + text_h - 5)] /\
  (0 <= x - 5 /\ 0 <= y - 5) /\
  (text_w <= img_w -> x + text_w - 5 <= img_w) /\
  (text_h <= img_h -> y + text_h - 5 <= img_h) /\
  (forall rest,
     annotate_from getTextSize format_score img_w img_h dets profiles_data
       ((profile_id, score) :: rest) st
     = annotate_from getTextSize format_score img_w img_h dets profiles_data
         rest st').
Proof.
  intros Hh Hdet Hbbox lines text_w text_h Hnone x y st'.
  assert (fallback_position (qr_x, qr_y, qr_w, qr_h) text_w text_h
            img_w img_h = (x, y)) as Hfb.
  { subst x y. unfold fallback_position, qr_box_padding.
    destruct (Z.gtb_spec (qr_x + qr_w + 5 + text_w - 5) img_w);
      destruct (Z.gtb_spec (qr_y + 5 + text_h - 5) img_h);
      repeat match goal with
        | |- context [Z.ltb ?a 5] => destruct (Z.ltb_spec a 5)
        end; f_equal; lia. }
  split; [exact Hfb |]. split.
  - pose proof (annotate_profile_present img_w img_h dets profiles_data st
                  profile_id score det qr_x qr_y qr_w qr_h Hdet Hbbox) as Hp.
    cbn zeta in Hp. fold lines text_w text_h st' in Hp.
    destruct (annotation_block_positive
                (name_to_display profiles_data profile_id) score
                (bio_to_display profiles_data profile_id) Hh)
      as (Hw & Hht & _).
    fold lines text_w text_h in Hw, Hht.
    assert ((text_w =? 0) || (text_h =? 0) = false) as Hguard
      by (apply orb_false_iff; split; apply Z.eqb_neq; lia).
    rewrite Hguard in Hp.
    destruct Hp as [_ ->]. unfold best_position. rewrite Hnone, Hfb.
    reflexivity.
  - repeat split; try lia. 
Qed.

End PassFacts.

(** ** Concrete runs *)



(** C3 as stated fails: the first token is appended to the prefix
    whatever the width of the line.  The only token measures 230 pixels,
    within the budget of 250, yet the returned line, the prefix and the
    token, measures 280 pixels. *)
Lemma wrap_bio_widths_counterexample :
  let bio := "infrastructure-engineer" in
  split " " bio = [bio] /\
  fst (sample_getTextSize bio) = 230 /\
  fits sample_getTextSize bio /\
  wrap_bio sample_getTextSize bio = ["Bio: infrastructure-engineer"] /\
  fst (sample_getTextSize "Bio: infrastructure-engineer") = 280 /\
  ~ Forall (fits sample_getTextSize) (wrap_bio sample_getTextSize bio).
Proof.
  cbn zeta. split; [reflexivity |]. split; [reflexivity |].
  split; [vm_compute; discriminate |]. split; [vm_compute; reflexivity |].
  split; [reflexivity |]. intros Hall.
  change (Forall (fits sample_getTextSize) ["Bio: infrastructure-engineer"])
    in Hall.
  apply Forall_cons_iff in Hall as [Hfit _].
  vm_compute in Hfit. now apply Hfit.
Qed.

(** A bio of plain words: the first line is a line of the prefix within
    the budget, and so are the lines after it. *)
Lemma wrap_bio_widths_witness :
  let bio := "Loves to explore digital landscapes and build amazing things" in
  exists first rest,
    wrap_bio sample_getTextSize bio = first :: rest
    /\ (fits sample_getTextSize first \/ prefix_line (split " " bio) first)
    /\ Forall
         (fun line => fits sample_getTextSize line \/ In line (split " " bio))
         rest.
Proof.
  cbn zeta.
  apply (wrap_bio_widths sample_getTextSize
           "Loves to explore digital landscapes and build amazing things").
  match goal with
  | |- Forall _ ?ws =>
      let ws' := eval vm_compute in ws in
      change ws with ws'
  end.
  repeat (constructor; [vm_compute; discriminate |]).
  constructor.
Defined.

(** The item of the first scenario has three lines and a block of 120 by
    50 pixels. *)
Lemma lines_for_annotation_three_witness :
  (3 <= length
          (lines_for_annotation sample_getTextSize sample_format
             (name_to_display (sample_profiles "") "id1") sample_score
             (bio_to_display (sample_profiles "") "id1")))%nat.
Proof.
  apply (lines_for_annotation_three sample_getTextSize sample_format
           (sample_profiles "") "id1" sample_score).
  cbn. lia.
Defined.

(** C10 as stated fails: the line that starts with ["Bio:"] is the third
    one, not the final one.  A bio that is wrapped gives continuation
    lines after it, and the final line is the last of these. *)
Lemma lines_for_annotation_counterexample :
  let lines :=
    lines_for_annotation sample_getTextSize sample_format "Alice"
      sample_score
      "Loves to explore digital landscapes and build amazing things" in
  lines
  = ["Name: Alice"; "Score: 0.95"; "Bio: Loves to explore";
     "digital landscapes and"; "build amazing things"] /\
  List.last lines "" = "build amazing things" /\
  startswith "Bio:" (List.last lines "") = false.
Proof.
  cbn zeta. split; [vm_compute; reflexivity |].
  split; vm_compute; reflexivity.
Qed.

(** C1 as stated fails: a candidate is not the top-left corner of the
    padded rectangle.  For an anchor at the top edge of a free canvas, the
    rectangle with its top-left corner at the first candidate [(185, 0)]
    stays inside the canvas; yet the padded rectangle that the search
    tests starts 5 pixels further left and up, at [(180, -5)], so the
    first candidate is rejected, and the third one is returned. *)
Lemma find_position_counterexample :
  candidate_positions (100, 0, 80, 80) 120 50
  = [(185, 0); (-25, 0); (100, 85); (100, -55); (80, 85); (80, -55)] /\
  in_canvas 1024 768 (185, 0, 185 + 120, 0 + 50) /\
  candidate_rect (185, 0) 120 50 = (180, -5, 300, 45) /\
  ~ in_canvas 1024 768 (candidate_rect (185, 0) 120 50) /\
  find_position (100, 0, 80, 80) 120 50 1024 768 [] = Some (100, 85).
Proof.
  split; [reflexivity |]. split; [cbn; lia |]. split; [reflexivity |].
  split; [cbn; lia | reflexivity].
Qed.

(** The second scenario of the specification with two profiles: both
    blocks lie within the canvas. *)
Lemma occupied_regions_in_canvas_witness :
  Forall (in_canvas 1024 768)
    (occupied_regions
       (annotate_image sample_getTextSize sample_format 1024 768
          [("id1", sample_score); ("id2", sample_score)]
          [sample_detection (50, 50, 60, 60);
           {| det_id := Some "id2"; det_bbox := Some (70, 70, 60, 60) |}]
          (sample_profiles ""))).
Proof.
  apply (occupied_regions_in_canvas sample_getTextSize sample_format).
  intros profile_id score det [Hin|[Hin|[]]] _;
    injection Hin as <- <-; vm_compute; split; discriminate.
Defined.

(** C2 as stated fails: on a canvas of 100 by 60 pixels the block of 120
    by 50 pixels cannot fit; the fallback keeps its left edge at 0 and
    its right edge ends at 120, outside the canvas.  The anchor itself is
    within the canvas. *)
Lemma occupied_regions_counterexample :
  in_canvas 100 60 (10, 10, 10 + 20, 10 + 20) /\
  occupied_regions
    (annotate_image sample_getTextSize sample_format 100 60
       [("id1", sample_score)] [sample_detection (10, 10, 20, 20)]
       (sample_profiles "a"))
  = [(0, 10, 120, 60)] /\
  ~ in_canvas 100 60 (0, 10, 120, 60).
Proof.
  split; [cbn; lia |]. split; [vm_compute; reflexivity |]. cbn. lia.
Qed.

(** An anchor in the middle of a canvas of 150 by 100 pixels: none of the
    six candidates fits, and the fallback moves the block left until its
    right edge is at 150. *)
Lemma fallback_clamped_and_registered_witness :
  find_position (50, 30, 40, 40) 120 50 150 100 [] = None /\
  occupied_regions
    (annotate_profile sample_getTextSize sample_format 150 100
       (detections_map [sample_detection (50, 30, 40, 40)])
       (sample_profiles "")
       {| image := []; occupied_regions := [] |} ("id1", sample_score))
  = [(30, 30, 150, 80)].
Proof.
  split; [reflexivity |].
  pose proof (fallback_clamped_and_registered sample_getTextSize
                sample_format 150 100
                (detections_map [sample_detection (50, 30, 40, 40)])
                (sample_profiles "")
                {| image := []; occupied_regions := [] |} "id1" sample_score
                (sample_detection (50, 30, 40, 40)) 50 30 40 40) as H.
  cbn zeta in H.
  destruct H as (_ & H & _);
    [cbn; lia | vm_compute; reflexivity | reflexivity
    | vm_compute; reflexivity |].
  vm_compute in H. vm_compute. exact H.
Defined.

(** C5 as stated fails: with the block wider than the canvas, the
    clamped rectangle still has its right edge beyond the canvas. *)
Lemma fallback_counterexample :
  find_position (10, 10, 20, 20) 120 50 100 60 [] = None /\
  fallback_position (10, 10, 20, 20) 120 50 100 60 = (5, 15) /\
  candidate_rect (final_text_position (5, 15)) 120 50 = (0, 10, 120, 60) /\
  ~ 120 <= 100.
Proof. repeat split; try reflexivity. lia. Qed.

(** C4 as stated fails: an empty body text does not wrap to zero lines,
    and the block of the item is drawn and registered. *)
Lemma empty_bio_counterexample :
  let st :=
    annotate_image sample_getTextSize sample_format 1024 768
      [("id1", sample_score)] [sample_detection (100, 100, 80, 80)]
      (sample_profiles "") in
  bio_to_display (sample_profiles "") "id1" = "" /\
  wrap_bio sample_getTextSize "" = ["Bio:"] /\
  wrap_bio sample_getTextSize "" <> [] /\
  occupied_regions st = [(180, 95, 300, 145)] /\
  image st
  = [Rectangle (100, 100) (180, 180) green 2;
     Rectangle (180, 95) (300, 145) text_bg_color FILLED;
     PutText "Name: Alice" (185, 110) font_color;
     PutText "Score: 0.95" (185, 125) font_color;
     PutText "Bio:" (185, 140) font_color].
Proof.
  cbn zeta. repeat split; try (vm_compute; reflexivity).
  vm_compute. discriminate.
Qed.

(** * Further properties *)

(** ** Drawing a block *)

Section DrawFacts.

Context (getTextSize : string -> Z * Z).

Lemma put_lines_texts (text_lines : list string) (fc : color) :
  forall x current_y step,
    drawn_texts (put_lines text_lines x current_y step fc) = text_lines
    /\ filled_rects (put_lines text_lines x current_y step fc) = []
    /\ List.filter is_anchor_box (put_lines text_lines x current_y step fc)
       = [].
Proof.
  induction text_lines as [|l ls IH]; intros x y step; [now repeat split |].
  destruct (IH x (y + step) step) as (H1 & H2 & H3).
  cbn [put_lines]. repeat split.
  - unfold drawn_texts. cbn [omap list_omap]. fold (drawn_texts (put_lines ls x (y + step) step fc)).
    now rewrite H1.
  - exact H2.
  - exact H3.
Qed.

Lemma put_lines_baselines (text_lines : list string) (fc : color) :
  forall x current_y step,
    0 <= step ->
    Forall
      (fun op =>
         exists line b,
           op = PutText line (x, b) fc
           /\ current_y <= b
              <= current_y + (Z.of_nat (length text_lines) - 1) * step)
      (put_lines text_lines x current_y step fc).
Proof.
  induction text_lines as [|l ls IH]; intros x y step Hstep; [constructor |].
  cbn [put_lines]. constructor.
  - exists l, y. split; [reflexivity |]. cbn [length]. nia.
  - eapply List.Forall_impl; [| apply (IH x (y + step) step Hstep)].
    intros op (line & b & -> & Hb). exists line, b.
    split; [reflexivity |]. cbn [length]. nia.
Qed.

(** What [draw_multiline_text_with_background] returns for a non-empty
    block, with the dimensions of [get_text_block_dimensions]. *)
Lemma draw_multiline_cons (img : list draw_op) (l : string)
    (ls : list string) (x y : Z) (fc bc : color) :
  let text_w := fst (get_text_block_dimensions getTextSize (l :: ls)) in
  let text_h := snd (get_text_block_dimensions getTextSize (l :: ls)) in
  draw_multiline_text_with_background getTextSize img (l :: ls) (x, y) fc bc
  = (img ++ Rectangle (x - 5, y - 5) (x - 5 + text_w, y - 5 + text_h) bc FILLED
         :: put_lines (l :: ls) x (y + snd (getTextSize "Tg"))
              (snd (getTextSize "Tg") + 5) fc,
     (x - 5, y - 5, x - 5 + text_w, y - 5 + text_h)).
Proof.
  cbn zeta. rewrite get_text_block_dimensions_cons. cbn [fst snd].
  unfold draw_multiline_text_with_background, padding.
  set (w := Z.min (max_line_width getTextSize (l :: ls)) text_block_max_width).
  set (h := Z.of_nat (length (l :: ls)) * (snd (getTextSize "Tg") + 5)).
  replace (x + w + 5) with (x - 5 + (w + 10)) by lia.
  replace (y + (h - 5) + 5) with (y - 5 + (h + 5)) by lia.
  reflexivity.
Qed.

End DrawFacts.

(** ** The pass as a whole *)

Section MorePassFacts.

Context (getTextSize : string -> Z * Z) (format_score : pyfloat -> string).

Lemma filled_rects_app (a b : list draw_op) :
  filled_rects (a ++ b) = filled_rects a ++ filled_rects b.
Proof. apply omap_app. Qed.

Lemma drawn_texts_app (a b : list draw_op) :
  drawn_texts (a ++ b) = drawn_texts a ++ drawn_texts b.
Proof. apply omap_app. Qed.

Lemma anchor_boxes_app (dets : gmap string detection)
    (a b : list (string * pyfloat)) :
  anchor_boxes dets (a ++ b) = anchor_boxes dets a ++ anchor_boxes dets b.
Proof. apply omap_app. Qed.

Lemma omap_length_le {A B : Type} (f : A -> option B) (l : list A) :
  (length (omap f l) <= length l)%nat.
Proof.
  induction l as [|a l IH]; [reflexivity |].
  change (omap f (a :: l))
    with (match f a with Some y => y :: omap f l | None => omap f l end).
  destruct (f a); cbn [length]; lia.
Qed.

Lemma anchor_boxes_length (dets : gmap string detection)
    (ranked_profiles : list (string * pyfloat)) :
  (length (anchor_boxes dets ranked_profiles) <= length ranked_profiles)%nat.
Proof. apply omap_length_le. Qed.

(** What one item adds to the image and to the occupied regions. *)
Lemma annotate_profile_adds (img_w img_h : Z)
    (dets : gmap string detection) (profiles_data : gmap string profile)
    (st : pass_state) (item : string * pyfloat) :
  let st' :=
    annotate_profile getTextSize format_score img_w img_h dets profiles_data
      st item in
  exists new_ops new_regions,
    image st' = image st ++ new_ops
    /\ occupied_regions st' = occupied_regions st ++ new_regions
    /\ filled_rects new_ops = new_regions
    /\ List.filter is_anchor_box new_ops = anchor_boxes dets [item]
    /\ (0 <= snd (getTextSize "Tg") ->
        drawn_texts new_ops
        = annotation_lines getTextSize format_score dets profiles_data [item]
        /\ length new_regions = length (anchor_boxes dets [item])).
Proof.
  destruct item as [profile_id score]. cbn zeta.
  unfold anchor_boxes, annotation_lines, annotate_profile.
  cbn [omap list_omap flat_map fst snd].
  destruct (dets !! profile_id) as [det|] eqn:Hdet.
  2:{ exists [], []. rewrite !app_nil_r. do 4 (split; [reflexivity |]).
      intros _. now split. }
  destruct (det_bbox det) as [[[[qr_x qr_y] qr_w] qr_h]|] eqn:Hbbox.
  2:{ exists [], []. rewrite !app_nil_r. do 4 (split; [reflexivity |]).
      intros _. now split. }
  set (lines := lines_for_annotation getTextSize format_score
                  (name_to_display profiles_data profile_id) score
                  (bio_to_display profiles_data profile_id)).
  set (box := Rectangle (qr_x, qr_y) (qr_x + qr_w, qr_y + qr_h)
                (get_color_for_relevance score) box_thickness).
  destruct (get_text_block_dimensions getTextSize lines) as [tw th] eqn:Hdim.
  destruct ((tw =? 0) || (th =? 0)) eqn:Hguard.
  - exists [box], []. cbn [image occupied_regions]. rewrite !app_nil_r.
    do 4 (split; [reflexivity |]). intros Hh. exfalso.
    destruct (annotation_block_positive getTextSize format_score
                (name_to_display profiles_data profile_id) score
                (bio_to_display profiles_data profile_id) Hh) as (Hw & Hht & _).
    fold lines in Hw, Hht. rewrite Hdim in Hw, Hht. cbn [fst snd] in Hw, Hht.
    apply orb_true_iff in Hguard as [H0|H0]; apply Z.eqb_eq in H0; lia.
  - rewrite final_text_position_best.
    assert (exists l ls, lines = l :: ls) as (l & ls & Hlines).
    { subst lines. rewrite lines_for_annotation_eq. eauto. }
    destruct (best_position (qr_x, qr_y, qr_w, qr_h) tw th img_w img_h
                (occupied_regions st)) as [x y].
    rewrite Hlines in *. rewrite draw_multiline_cons. rewrite Hdim.
    cbn [fst snd image occupied_regions].
    exists (box :: Rectangle (x - 5, y - 5) (x - 5 + tw, y - 5 + th)
                     text_bg_color FILLED
                :: put_lines (l :: ls) x (y + snd (getTextSize "Tg"))
                     (snd (getTextSize "Tg") + 5) font_color),
      [(x - 5, y - 5, x - 5 + tw, y - 5 + th)].
    destruct (put_lines_texts (l :: ls) font_color x
                (y + snd (getTextSize "Tg")) (snd (getTextSize "Tg") + 5))
      as (Htexts & Hfilled & Hanchor).
    split; [now rewrite <- app_assoc |]. split; [reflexivity |].
    split; [| split].
    + change (filled_rects (box :: ?a :: ?b))
        with ((x - 5, y - 5, x - 5 + tw, y - 5 + th) :: filled_rects b).
      now rewrite Hfilled.
    + change (List.filter is_anchor_box (box :: ?a :: ?b))
        with (box :: List.filter is_anchor_box b).
      now rewrite Hanchor.
    + intros _. split; [| reflexivity].
      change (drawn_texts (box :: ?a :: ?b)) with (drawn_texts b).
      rewrite Htexts. now rewrite app_nil_r.
Qed.

(** The pass adds to the image and to the occupied regions, item after
    item. *)
Lemma annotate_from_adds (img_w img_h : Z)
    (dets : gmap string detection) (profiles_data : gmap string profile)
    (ranked_profiles : list (string * pyfloat)) :
  forall st,
    let st' :=
      annotate_from getTextSize format_score img_w img_h dets profiles_data
        ranked_profiles st in
    exists new_ops new_regions,
      image st' = image st ++ new_ops
      /\ occupied_regions st' = occupied_regions st ++ new_regions
      /\ filled_rects new_ops = new_regions
      /\ List.filter is_anchor_box new_ops = anchor_boxes dets ranked_profiles
      /\ (0 <= snd (getTextSize "Tg") ->
          drawn_texts new_ops
          = annotation_lines getTextSize format_score dets profiles_data
              ranked_profiles
          /\ length new_regions
             = length (anchor_boxes dets ranked_profiles)).
Proof.
  induction ranked_profiles as [|item rest IH]; intros st; cbn zeta.
  - exists [], []. rewrite !app_nil_r. do 4 (split; [reflexivity |]).
    intros _. now split.
  - rewrite annotate_from_cons.
    destruct (annotate_profile_adds img_w img_h dets profiles_data st item)
      as (ops1 & regs1 & Hi1 & Ho1 & Hf1 & Ha1 & Hh1).
    destruct (IH (annotate_profile getTextSize format_score img_w img_h dets
                    profiles_data st item))
      as (ops2 & regs2 & Hi2 & Ho2 & Hf2 & Ha2 & Hh2).
    exists (ops1 ++ ops2), (regs1 ++ regs2).
    rewrite Hi2, Ho2, Hi1, Ho1, <- !app_assoc.
    split; [reflexivity |]. split; [reflexivity |].
    split; [now rewrite filled_rects_app, Hf1, Hf2 |].
    split.
    + rewrite List.filter_app, Ha1, Ha2.
      change (item :: rest) with ([item] ++ rest).
      now rewrite anchor_boxes_app.
    + intros Hh. destruct (Hh1 Hh) as [Ht1 Hl1]. destruct (Hh2 Hh) as [Ht2 Hl2].
      split.
      * rewrite drawn_texts_app, Ht1, Ht2.
        unfold annotation_lines. cbn [flat_map]. now rewrite app_nil_r.
      * change (item :: rest) with ([item] ++ rest).
        rewrite anchor_boxes_app, !length_app. lia.
Qed.

End MorePassFacts.

(** ** The block of an item with an empty bio *)

Section EmptyBioFacts.

Context (getTextSize : string -> Z * Z) (format_score : pyfloat -> string).

(** C4 (amended).  For every processed item whose body text is the empty
    string, wrapping yields the single line ["Bio:"], not zero lines, and
    the text block of the item is not skipped.  After the anchor box, the
    background rectangle of the block of three lines (name, score and
    ["Bio:"]) is drawn at the position that the placement chooses, with
    the three lines over it, and this rectangle is registered in the
    occupied regions.  The pass then goes on with the next item, and keeps
    what the item has drawn and registered. *)
Theorem empty_bio_block_drawn (img_w img_h : Z)
    (dets : gmap string detection) (profiles_data : gmap string profile)
    (st : pass_state) (profile_id : string) (score : pyfloat)
    (det : detection) (qr_x qr_y qr_w qr_h : Z) :
  dets !! profile_id = Some det ->
  det_bbox det = Some (qr_x, qr_y, qr_w, qr_h) ->
  bio_to_display profiles_data profile_id = "" ->
  let name_line := "Name: " +:+ name_to_display profiles_data profile_id in
  let score_line := "Score: " +:+ format_score score in
  let lines := [name_line; score_line; "Bio:"] in
  let h := snd (getTextSize "Tg") in
  let text_w :=
    Z.min (max_line_width getTextSize lines) text_block_max_width + 10 in
  let text_h := 3 * (h + 5) + 5 in
  let best_pos :=
    best_position (qr_x, qr_y, qr_w, qr_h) text_w text_h img_w img_h
      (occupied_regions st) in
  let x := fst best_pos in
  let y := snd best_pos in
  let box :=
    Rectangle (qr_x, qr_y) (qr_x + qr_w, qr_y + qr_h)
      (get_color_for_relevance score) box_thickness in
  let st' :=
    annotate_profile getTextSize format_score img_w img_h dets profiles_data
      st (profile_id, score) in
  wrap_bio getTextSize "" = ["Bio:"] /\
  lines_for_annotation getTextSize format_score
    (name_to_display profiles_data profile_id) score
    (bio_to_display profiles_data profile_id) = lines /\
  get_text_block_dimensions getTextSize lines = (text_w, text_h) /\
  image st'
  = image st
      ++ [box;
          Rectangle (x - 5, y - 5) (x - 5 + text_w, y - 5 + text_h)
            text_bg_color FILLED;
          PutText name_line (x, y + h) font_color;
          PutText score_line (x, y + h + (h + 5)) font_color;
          PutText "Bio:" (x, y + h + (h + 5) + (h + 5)) font_color] /\
  occupied_regions st'
  = occupied_regions st
      ++ [(x - 5, y - 5, x - 5 + text_w, y - 5 + text_h)] /\
  (forall rest,
     let final :=
       annotate_from getTextSize format_score img_w img_h dets profiles_data
         ((profile_id, score) :: rest) st in
     final
     = annotate_from getTextSize format_score img_w img_h dets profiles_data
         rest st'
     /\ image st' `prefix_of` image final
     /\ occupied_regions st' `prefix_of` occupied_regions final).
Proof.
  intros Hdet Hbbox Hbio name_line score_line lines h text_w text_h
    best_pos x y box st'.
  assert (lines_for_annotation getTextSize format_score
            (name_to_display profiles_data profile_id) score
            (bio_to_display profiles_data profile_id) = lines) as Hlines.
  { rewrite Hbio, lines_for_annotation_eq, wrap_bio_empty. reflexivity. }
  assert (get_text_block_dimensions getTextSize lines = (text_w, text_h))
    as Hdim.
  { subst lines text_w text_h h. rewrite get_text_block_dimensions_cons.
    cbn [length]. f_equal; lia. }
  assert ((text_w =? 0) || (text_h =? 0) = false) as Hguard.
  { pose proof (max_line_width_nonneg getTextSize lines) as Hw.
    subst text_w text_h. unfold text_block_max_width.
    apply orb_false_iff. split; apply Z.eqb_neq; lia. }
  assert (st'
          = {| image :=
                 image st
                   ++ [box;
                       Rectangle (x - 5, y - 5)
                         (x - 5 + text_w, y - 5 + text_h)
                         text_bg_color FILLED;
                       PutText name_line (x, y + h) font_color;
                       PutText score_line (x, y + h + (h + 5)) font_color;
                       PutText "Bio:" (x, y + h + (h + 5) + (h + 5))
                         font_color];
               occupied_regions :=
                 occupied_regions st
                   ++ [(x - 5, y - 5, x - 5 + text_w, y - 5 + text_h)] |})
    as Hst.
  { subst st'. unfold annotate_profile. rewrite Hdet, Hbbox.
    rewrite Hlines, Hdim, Hguard. rewrite final_text_position_best.
    fold best_pos. rewrite (surjective_pairing best_pos). fold x y.
    subst lines. rewrite draw_multiline_cons. fold h.
    rewrite Hdim. cbn [fst snd put_lines].
    rewrite <- app_assoc. reflexivity. }
  split; [apply wrap_bio_empty |]. split; [exact Hlines |].
  split; [exact Hdim |].
  split; [now rewrite Hst |]. split; [now rewrite Hst |].
  intros rest final. subst final. rewrite annotate_from_cons. fold st'.
  split; [reflexivity |].
  destruct (annotate_from_adds getTextSize format_score img_w img_h dets
              profiles_data rest st')
    as (ops & regs & Himg & Hocc & _).
  cbn zeta in Himg, Hocc.
  split; [exists ops; exact Himg | exists regs; exact Hocc].
Qed.

End EmptyBioFacts.

(** An item with an empty bio on the canvas of the first scenario: the
    anchor box, the background of the block, and the three lines. *)
Lemma empty_bio_block_drawn_witness :
  let st' :=
    annotate_profile sample_getTextSize sample_format 1024 768
      (detections_map [sample_detection (100, 100, 80, 80)])
      (sample_profiles "")
      {| image := []; occupied_regions := [] |} ("id1", sample_score) in
  image st'
  = [Rectangle (100, 100) (180, 180) green 2;
     Rectangle (180, 95) (300, 145) text_bg_color FILLED;
     PutText "Name: Alice" (185, 110) font_color;
     PutText "Score: 0.95" (185, 125) font_color;
     PutText "Bio:" (185, 140) font_color] /\
  occupied_regions st' = [(180, 95, 300, 145)].
Proof.
  pose proof (empty_bio_block_drawn sample_getTextSize sample_format 1024 768
                (detections_map [sample_detection (100, 100, 80, 80)])
                (sample_profiles "")
                {| image := []; occupied_regions := [] |} "id1" sample_score
                (sample_detection (100, 100, 80, 80)) 100 100 80 80) as H.
  cbn zeta in H.
  destruct H as (_ & _ & _ & Himg & Hocc & _);
    [vm_compute; reflexivity | reflexivity | vm_compute; reflexivity |].
  cbn zeta. split; [rewrite Himg | rewrite Hocc]; vm_compute; reflexivity.
Defined.

Section PassTheorems.

Context (getTextSize : string -> Z * Z) (format_score : pyfloat -> string).

(** X1.  At the end of a pass the filled rectangles drawn on the image
    are exactly the occupied regions, in the same order: every text
    background that is drawn is registered, and nothing else is. *)
Theorem filled_rects_are_occupied_regions (img_w img_h : Z)
    (ranked_profiles : list (string * pyfloat))
    (all_detections : list detection) (profiles_data : gmap string profile) :
  let st :=
    annotate_image getTextSize format_score img_w img_h ranked_profiles
      all_detections profiles_data in
  filled_rects (image st) = occupied_regions st.
Proof.
  cbn zeta. unfold annotate_image.
  destruct (annotate_from_adds getTextSize format_score img_w img_h
              (detections_map all_detections) profiles_data ranked_profiles
              {| image := []; occupied_regions := [] |})
    as (ops & regs & -> & -> & Hf & _).
  exact Hf.
Qed.

(** X2.  The anchor boxes drawn during a pass are exactly those of the
    ranked items that have a detection, in ranked order, each in the
    colour of its score: an anchor box is drawn whatever happens to the
    text block, and an item without detection draws none. *)
Theorem anchor_boxes_drawn (img_w img_h : Z)
    (ranked_profiles : list (string * pyfloat))
    (all_detections : list detection) (profiles_data : gmap string profile) :
  List.filter is_anchor_box
    (image
       (annotate_image getTextSize format_score img_w img_h ranked_profiles
          all_detections profiles_data))
  = anchor_boxes (detections_map all_detections) ranked_profiles.
Proof.
  unfold annotate_image.
  destruct (annotate_from_adds getTextSize format_score img_w img_h
              (detections_map all_detections) profiles_data ranked_profiles
              {| image := []; occupied_regions := [] |})
    as (ops & regs & -> & _ & _ & Ha & _).
  exact Ha.
Qed.

(** X3.  Text heights being non-negative, a pass registers exactly one
    region per ranked item that has a detection (an id ranked twice counts
    twice), and the texts written on the image are the annotation lines
    of these items, item after item. *)
Theorem one_block_per_processed_item (img_w img_h : Z)
    (ranked_profiles : list (string * pyfloat))
    (all_detections : list detection) (profiles_data : gmap string profile) :
  0 <= snd (getTextSize "Tg") ->
  let st :=
    annotate_image getTextSize format_score img_w img_h ranked_profiles
      all_detections profiles_data in
  length (occupied_regions st)
  = length (anchor_boxes (detections_map all_detections) ranked_profiles)
  /\ (length (occupied_regions st) <= length ranked_profiles)%nat
  /\ drawn_texts (image st)
     = annotation_lines getTextSize format_score
         (detections_map all_detections) profiles_data ranked_profiles.
Proof.
  intros Hh. cbn zeta. unfold annotate_image.
  destruct (annotate_from_adds getTextSize format_score img_w img_h
              (detections_map all_detections) profiles_data ranked_profiles
              {| image := []; occupied_regions := [] |})
    as (ops & regs & -> & -> & _ & _ & Hrest).
  destruct (Hrest Hh) as [Ht Hl]. cbn [app image occupied_regions]. rewrite Hl.
  split; [reflexivity |]. split; [| exact Ht].
  apply anchor_boxes_length.
Qed.

(** X4.  A pass only appends: the drawing calls and the occupied regions
    present before an item, or before a whole list of items, are a prefix
    of those present after it. *)
Theorem pass_only_appends (img_w img_h : Z)
    (dets : gmap string detection) (profiles_data : gmap string profile)
    (ranked_profiles : list (string * pyfloat)) (st : pass_state) :
  let st' :=
    annotate_from getTextSize format_score img_w img_h dets profiles_data
      ranked_profiles st in
  image st `prefix_of` image st'
  /\ occupied_regions st `prefix_of` occupied_regions st'.
Proof.
  cbn zeta.
  destruct (annotate_from_adds getTextSize format_score img_w img_h dets
              profiles_data ranked_profiles st)
    as (ops & regs & -> & -> & _).
  split; apply prefix_app_r; reflexivity.
Qed.

(** X5.  Ranked items whose id has no detection are ignored: the pass
    gives the same image and the same regions as on the list without
    them. *)
Theorem undetected_items_ignored (img_w img_h : Z)
    (dets : gmap string detection) (profiles_data : gmap string profile)
    (ranked_profiles : list (string * pyfloat)) (st : pass_state) :
  annotate_from getTextSize format_score img_w img_h dets profiles_data
    ranked_profiles st
  = annotate_from getTextSize format_score img_w img_h dets profiles_data
      (List.filter (fun item => is_Some_bool (dets !! item.1)) ranked_profiles)
      st.
Proof.
  revert st. induction ranked_profiles as [|[profile_id score] rest IH];
    intros st; [reflexivity |].
  cbn [List.filter fst]. rewrite annotate_from_cons.
  destruct (dets !! profile_id) as [det|] eqn:Hdet; cbn [is_Some_bool].
  - rewrite annotate_from_cons. apply IH.
  - rewrite annotate_profile_absent by exact Hdet. apply IH.
Qed.

End PassTheorems.

(** ** Passes without fallback *)

Section DisjointFacts.

Context (getTextSize : string -> Z * Z) (format_score : pyfloat -> string).

Lemma check_overlap_sym (r1 r2 : rect) :
  check_overlap r1 r2 = check_overlap r2 r1.
Proof.
  destruct r1 as [[[a1 b1] c1] d1], r2 as [[[a2 b2] c2] d2].
  unfold check_overlap.
  destruct (Z.geb_spec a1 c2), (Z.leb_spec c1 a2), (Z.geb_spec b1 d2),
    (Z.leb_spec d1 b2), (Z.geb_spec a2 c1), (Z.leb_spec c2 a1),
    (Z.geb_spec b2 d1), (Z.leb_spec d2 b1); cbn [orb];
    try reflexivity; lia.
Qed.

Lemma pairwise_disjoint_snoc (regions : list rect) (r : rect) :
  pairwise_disjoint regions ->
  Forall (fun o => check_overlap r o = false) regions ->
  pairwise_disjoint (regions ++ [r]).
Proof.
  unfold pairwise_disjoint. induction 1 as [|o l Ho Hl IH]; intros Hr.
  - cbn. constructor; constructor.
  - apply Forall_cons_iff in Hr as [Hro Hr]. cbn [app]. constructor.
    + apply Forall_app. split; [exact Ho |].
      constructor; [| constructor]. now rewrite check_overlap_sym.
    + now apply IH.
Qed.

Lemma annotate_profile_disjoint (img_w img_h : Z)
    (dets : gmap string detection) (profiles_data : gmap string profile)
    (st : pass_state) (item : string * pyfloat) :
  falls_back getTextSize format_score img_w img_h dets profiles_data st item
  = false ->
  pairwise_disjoint (occupied_regions st)
  /\ Forall (in_canvas img_w img_h) (occupied_regions st) ->
  let st' :=
    annotate_profile getTextSize format_score img_w img_h dets profiles_data
      st item in
  pairwise_disjoint (occupied_regions st')
  /\ Forall (in_canvas img_w img_h) (occupied_regions st').
Proof.
  destruct item as [profile_id score]. unfold falls_back. cbn [fst snd].
  intros Hfb [Hdis Hin]. cbn zeta.
  destruct (dets !! profile_id) as [det|] eqn:Hdet;
    [| now rewrite annotate_profile_absent].
  destruct (det_bbox det) as [[[[qr_x qr_y] qr_w] qr_h]|] eqn:Hbbox.
  2:{ unfold annotate_profile. rewrite Hdet, Hbbox. now split. }
  pose proof (annotate_profile_present getTextSize format_score img_w img_h
                dets profiles_data st profile_id score det qr_x qr_y qr_w qr_h
                Hdet Hbbox) as Hp.
  cbn zeta in Hp.
  destruct (get_text_block_dimensions getTextSize _) as [tw th].
  cbn [fst snd] in Hp.
  destruct ((tw =? 0) || (th =? 0)).
  - destruct Hp as [_ ->]. now split.
  - destruct Hp as [_ ->]. cbn [negb andb] in Hfb. unfold best_position.
    destruct (find_position (qr_x, qr_y, qr_w, qr_h) tw th img_w img_h
                (occupied_regions st)) as [pos|] eqn:Hfind;
      [| discriminate].
    apply find_position_accepted in Hfind as [Hcanvas Hfree]. split.
    + now apply pairwise_disjoint_snoc.
    + apply Forall_app. split; [exact Hin | now constructor].
Qed.

Lemma annotate_from_disjoint (img_w img_h : Z)
    (dets : gmap string detection) (profiles_data : gmap string profile)
    (ranked_profiles : list (string * pyfloat)) :
  forall st,
    fallback_items getTextSize format_score img_w img_h dets profiles_data
      ranked_profiles st = [] ->
    pairwise_disjoint (occupied_regions st)
    /\ Forall (in_canvas img_w img_h) (occupied_regions st) ->
    let st' :=
      annotate_from getTextSize format_score img_w img_h dets profiles_data
        ranked_profiles st in
    pairwise_disjoint (occupied_regions st')
    /\ Forall (in_canvas img_w img_h) (occupied_regions st').
Proof.
  induction ranked_profiles as [|item rest IH]; intros st Hnone Hst;
    [exact Hst |].
  cbn zeta. rewrite annotate_from_cons. cbn [fallback_items] in Hnone.
  destruct (falls_back getTextSize format_score img_w img_h dets
              profiles_data st item) eqn:Hfb; [discriminate |].
  apply IH; [exact Hnone |]. now apply annotate_profile_disjoint.
Qed.

(** X6.  When no item of a pass falls back, that is, when the search
    finds a position for every processed item, the text blocks registered
    at the end of the pass are pairwise non-overlapping and all lie
    within the canvas. *)
Theorem no_fallback_no_overlap (img_w img_h : Z)
    (ranked_profiles : list (string * pyfloat))
    (all_detections : list detection) (profiles_data : gmap string profile) :
  fallback_items getTextSize format_score img_w img_h
    (detections_map all_detections) profiles_data ranked_profiles
    {| image := []; occupied_regions := [] |} = [] ->
  let st :=
    annotate_image getTextSize format_score img_w img_h ranked_profiles
      all_detections profiles_data in
  pairwise_disjoint (occupied_regions st)
  /\ Forall (in_canvas img_w img_h) (occupied_regions st).
Proof.
  intros Hnone. unfold annotate_image.
  apply annotate_from_disjoint; [exact Hnone |].
  split; constructor.
Qed.

End DisjointFacts.

(** ** The block and its lines *)

Section BlockFacts.

Context (getTextSize : string -> Z * Z).

Lemma max_line_width_ge (text_lines : list string) (line : string) :
  In line text_lines ->
  fst (getTextSize line) <= max_line_width getTextSize text_lines.
Proof.
  unfold max_line_width. generalize 0.
  induction text_lines as [|l ls IH]; intros acc Hin; [destruct Hin |].
  destruct Hin as [->|Hin]; cbn [fold_left].
  - apply max_line_width_from. cbn zeta.
    destruct (Z.gtb_spec (fst (getTextSize line)) acc); lia.
  - now apply IH.
Qed.

(** X7.  The width of a non-empty block lies between 10 and 260 pixels
    (the width budget plus both paddings) whatever the lines measure, so a
    line wider than the budget is not covered by its background; the block
    is at least as wide as every line that fits plus the paddings; its
    height is 5 pixels more than the line count times the line pitch.  An
    empty block measures 0 by 0. *)
Theorem text_block_dimensions_bounds (text_lines : list string) :
  get_text_block_dimensions getTextSize [] = (0, 0) /\
  (text_lines <> [] ->
   let text_w := fst (get_text_block_dimensions getTextSize text_lines) in
   let text_h := snd (get_text_block_dimensions getTextSize text_lines) in
   10 <= text_w <= text_block_max_width + 2 * padding
   /\ (forall line,
         In line text_lines ->
         Z.min (fst (getTextSize line)) text_block_max_width + 2 * padding
         <= text_w)
   /\ text_h
      = Z.of_nat (length text_lines) * (snd (getTextSize "Tg") + 5) + 5).
Proof.
  split; [reflexivity |]. intros Hne.
  destruct text_lines as [|l ls]; [congruence |].
  cbn zeta. rewrite get_text_block_dimensions_cons. cbn [fst snd].
  pose proof (max_line_width_nonneg getTextSize (l :: ls)) as Hw.
  unfold text_block_max_width, padding.
  split; [lia |]. split; [| reflexivity].
  intros line Hin. pose proof (max_line_width_ge (l :: ls) line Hin). lia.
Qed.

(** X8.  Text heights being non-negative, drawing a non-empty block draws
    one filled rectangle of the measured width and height, whose top-left
    corner is 5 pixels to the left of and above the given position, and
    then writes the lines in order, each at the x of the position with its
    baseline strictly between the top and the bottom of the rectangle; the
    rectangle is what the function returns.  With no line, nothing is
    drawn and the degenerate rectangle at the position is returned. *)
Theorem draw_block_layout (img : list draw_op) (l : string)
    (ls : list string) (x y : Z) (fc bc : color) :
  0 <= snd (getTextSize "Tg") ->
  let text_w := fst (get_text_block_dimensions getTextSize (l :: ls)) in
  let text_h := snd (get_text_block_dimensions getTextSize (l :: ls)) in
  let drawn :=
    draw_multiline_text_with_background getTextSize img (l :: ls) (x, y)
      fc bc in
  draw_multiline_text_with_background getTextSize img [] (x, y) fc bc
  = (img, (x, y, x, y)) /\
  snd drawn = (x - 5, y - 5, x - 5 + text_w, y - 5 + text_h) /\
  exists text_ops,
    fst drawn
    = img ++ Rectangle (x - 5, y - 5) (x - 5 + text_w, y - 5 + text_h)
               bc FILLED :: text_ops
    /\ drawn_texts text_ops = l :: ls
    /\ Forall
         (fun op =>
            exists line b,
              op = PutText line (x, b) fc /\ y - 5 < b < y - 5 + text_h)
         text_ops.
Proof.
  intros Hh. cbn zeta. split; [reflexivity |].
  rewrite draw_multiline_cons. cbn [fst snd]. split; [reflexivity |].
  eexists. split; [reflexivity |]. split.
  - apply put_lines_texts.
  - rewrite get_text_block_dimensions_cons. cbn [snd].
    eapply List.Forall_impl;
      [| apply (put_lines_baselines (l :: ls) fc x
                  (y + snd (getTextSize "Tg")) (snd (getTextSize "Tg") + 5))];
      [| lia].
    intros op (line & b & -> & Hb). exists line, b.
    split; [reflexivity |]. nia.
Qed.

(** X9.  The wrapper returns at least one line and at most as many lines
    as the bio has tokens, that is, one more than it has spaces. *)
Theorem wrap_bio_line_count (bio : string) :
  (1 <= length (wrap_bio getTextSize bio) <= length (split " " bio))%nat.
Proof.
  split.
  - destruct (wrap_bio_head getTextSize bio) as (l & rest & -> & _).
    cbn [length]. lia.
  - unfold wrap_bio.
    assert (forall ws lines cur,
              (length (fst (bio_loop getTextSize ws (lines, cur)))
               <= length lines + length ws)%nat) as Hloop.
    { induction ws as [|w ws IH]; intros lines cur; [cbn; lia |].
      rewrite bio_loop_cons. unfold bio_step. destruct (_ && _).
      - etransitivity; [apply IH |]. rewrite length_app. cbn [length]. lia.
      - etransitivity; [apply IH |]. cbn [length]. lia. }
    pose proof (PyStrFacts.split_not_nil " " bio) as Hne.
    destruct (split " " bio) as [|w ws]; [congruence |].
    rewrite bio_loop_cons. unfold bio_step.
    change (String.eqb "Bio:" "Bio:") with true. cbn [negb].
    rewrite andb_false_r.
    specialize (Hloop ws [] (strip ("Bio:" +:+ " " +:+ w))).
    destruct (bio_loop getTextSize ws ([], strip ("Bio:" +:+ " " +:+ w)))
      as [lines cur].
    cbn [fst length] in *. unfold bio_flush.
    destruct (truthy cur); [rewrite length_app; cbn [length] |]; lia.
Qed.

End BlockFacts.

(** ** Scores out of range *)

(** X10.  A score of 1 or more, plus infinity and NaN are all drawn in
    green, and a score of 0 or less and minus infinity in red; clamping a
    score beforehand does not change its colour. *)
Theorem color_out_of_range (score : pyfloat) :
  (score = NaN \/ leb f1_0 score = true ->
   get_color_for_relevance score = green) /\
  (leb score f0_0 = true -> get_color_for_relevance score = red) /\
  get_color_for_relevance (clamp01 score) = get_color_for_relevance score.
Proof.
  repeat apply conj.
  - intros [->|H]; [reflexivity |]. revert H. ColorFacts.unfold_color.
    destruct score as [q| | |]; cbn; try discriminate; try reflexivity.
    ColorFacts.split_Qle; intros; try discriminate; try reflexivity; lra.
  - ColorFacts.unfold_color.
    destruct score as [q| | |]; cbn; try discriminate; try reflexivity.
    ColorFacts.split_Qle; intros; try discriminate; try reflexivity; lra.
  - unfold get_color_for_relevance.
    destruct (ColorFacts.clamp01_range score) as (q & -> & Hq).
    ColorFacts.unfold_color. cbn.
    ColorFacts.split_Qle; try reflexivity; lra.
Qed.

Lemma color_out_of_range_witness :
  get_color_for_relevance PosInf = green.
Proof.
  destruct (color_out_of_range PosInf) as [Hgreen _].
  apply Hgreen. right. reflexivity.
Defined.

(** ** The map of detections *)

Section DetectionFacts.

Local Abbreviation dm_step :=
  (fun (m : gmap string detection) (det : detection) =>
     match det_id det, det_bbox det with
     | Some i, Some _ => <[i := det]> m
     | _, _ => m
     end).

Lemma dm_fold_origin (dets : list detection) :
  forall (m : gmap string detection) i det,
    fold_left dm_step dets m !! i = Some det ->
    m !! i = Some det \/ (In det dets /\ usable i det).
Proof.
  induction dets as [|d0 dets IH]; intros m i det H; [now left |].
  cbn [fold_left] in H. apply IH in H as [H|[Hin Hu]];
    [| right; split; [now right | exact Hu]].
  destruct (det_id d0) as [i0|] eqn:Hid; [| now left].
  destruct (det_bbox d0) as [b0|] eqn:Hb; [| now left].
  destruct (decide (i0 = i)) as [->|Hne].
  - rewrite lookup_insert_eq in H. injection H as <-.
    right. split; [now left |]. split; [exact Hid | rewrite Hb; eauto].
  - rewrite lookup_insert_ne in H by assumption. now left.
Qed.

Lemma dm_fold_skip (dets : list detection) (i : string) :
  Forall (fun d => ~ usable i d) dets ->
  forall m : gmap string detection, fold_left dm_step dets m !! i = m !! i.
Proof.
  induction 1 as [|d0 dets Hd0 _ IH]; intros m; [reflexivity |].
  cbn [fold_left]. rewrite IH.
  destruct (det_id d0) as [i0|] eqn:Hid; [| reflexivity].
  destruct (det_bbox d0) as [b0|] eqn:Hb; [| reflexivity].
  destruct (decide (i0 = i)) as [->|Hne].
  - exfalso. apply Hd0. split; [exact Hid | rewrite Hb; eauto].
  - now rewrite lookup_insert_ne.
Qed.

Lemma dm_fold_keeps (dets : list detection) (i : string) :
  forall m : gmap string detection,
    is_Some (m !! i) -> is_Some (fold_left dm_step dets m !! i).
Proof.
  induction dets as [|d0 dets IH]; intros m Hm; [exact Hm |].
  cbn [fold_left]. apply IH.
  destruct (det_id d0) as [i0|]; [| exact Hm].
  destruct (det_bbox d0) as [b0|]; [| exact Hm].
  destruct (decide (i0 = i)) as [->|Hne].
  - rewrite lookup_insert_eq. eauto.
  - now rewrite lookup_insert_ne.
Qed.

Lemma detections_map_has (all_detections : list detection) (i : string)
    (det : detection) :
  In det all_detections -> usable i det ->
  exists d, detections_map all_detections !! i = Some d /\ usable i d.
Proof.
  intros Hin [Hid [b Hb]]. unfold detections_map.
  apply in_split in Hin as (earlier & later & ->).
  destruct (dm_fold_keeps later i
              (fold_left dm_step (earlier ++ [det]) ∅)) as [d Hd].
  { rewrite fold_left_app. cbn [fold_left]. rewrite Hid, Hb.
    rewrite lookup_insert_eq. eauto. }
  rewrite <- fold_left_app, <- app_assoc in Hd. cbn [app] in Hd.
  exists d. split; [exact Hd |].
  apply dm_fold_origin in Hd as [Hd|[_ Hu]]; [| exact Hu].
  rewrite lookup_empty in Hd. discriminate.
Qed.

(** X11.  The map of detections holds, under an id, a detection of the
    list that carries this id and a bounding box; an id is in the map
    exactly when some detection of the list carries it together with a
    bounding box; and of several such detections the last one is kept. *)
Theorem detections_map_lookup (all_detections : list detection)
    (i : string) :
  (forall det,
     detections_map all_detections !! i = Some det ->
     In det all_detections /\ usable i det) /\
  (is_Some (detections_map all_detections !! i) <->
   exists det, In det all_detections /\ usable i det) /\
  (forall earlier det later,
     all_detections = earlier ++ det :: later ->
     usable i det ->
     Forall (fun d => ~ usable i d) later ->
     detections_map all_detections !! i = Some det).
Proof.
  unfold detections_map.
  assert (forall det,
            fold_left dm_step all_detections ∅ !! i = Some det ->
            In det all_detections /\ usable i det) as Hsound.
  { intros det H. apply dm_fold_origin in H as [H|H]; [| exact H].
    rewrite lookup_empty in H. discriminate. }
  assert (forall earlier det later,
            all_detections = earlier ++ det :: later ->
            usable i det ->
            Forall (fun d => ~ usable i d) later ->
            fold_left dm_step all_detections ∅ !! i = Some det) as Hlast.
  { intros earlier det later -> [Hid [b Hb]] Hlater.
    rewrite fold_left_app. cbn [fold_left].
    rewrite dm_fold_skip by exact Hlater.
    rewrite Hid, Hb. apply lookup_insert_eq. }
  split; [exact Hsound |]. split; [| exact Hlast].
  split.
  - intros [det H]. exists det. now apply Hsound.
  - intros (det & Hin & [Hid [b Hb]]).
    apply in_split in Hin as (earlier & later & ->).
    rewrite fold_left_app. cbn [fold_left]. apply dm_fold_keeps.
    rewrite Hid, Hb, lookup_insert_eq. eauto.
Qed.

End DetectionFacts.

(** ** Loading and ranking the profiles *)

Section LoadFacts.

Local Abbreviation lp_step :=
  (fun (profiles_dict : gmap string profile_entry) (entry : profile_entry) =>
     match entry_id entry with
     | Some id => <[id := with_defaults id entry]> profiles_dict
     | None => profiles_dict
     end).

Lemma lp_fold_origin (profiles : list profile_entry) :
  forall (m : gmap string profile_entry) i entry,
    fold_left lp_step profiles m !! i = Some entry ->
    m !! i = Some entry
    \/ exists raw,
         In raw profiles /\ entry_id raw = Some i
         /\ entry = with_defaults i raw.
Proof.
  induction profiles as [|p0 ps IH]; intros m i entry H; [now left |].
  cbn [fold_left] in H. apply IH in H as [H|(raw & Hin & Hraw)];
    [| right; exists raw; split; [now right | exact Hraw]].
  destruct (entry_id p0) as [i0|] eqn:Hid; [| now left].
  destruct (decide (i0 = i)) as [->|Hne].
  - rewrite lookup_insert_eq in H. injection H as <-.
    right. exists p0. split; [now left | now split].
  - rewrite lookup_insert_ne in H by assumption. now left.
Qed.

Lemma lp_fold_skip (profiles : list profile_entry) (i : string) :
  Forall (fun p => entry_id p <> Some i) profiles ->
  forall m : gmap string profile_entry,
    fold_left lp_step profiles m !! i = m !! i.
Proof.
  induction 1 as [|p0 ps Hp0 _ IH]; intros m; [reflexivity |].
  cbn [fold_left]. rewrite IH.
  destruct (entry_id p0) as [i0|] eqn:Hid; [| reflexivity].
  destruct (decide (i0 = i)) as [->|Hne]; [congruence |].
  now rewrite lookup_insert_ne.
Qed.

Lemma lp_fold_keeps (profiles : list profile_entry) (i : string) :
  forall m : gmap string profile_entry,
    is_Some (m !! i) -> is_Some (fold_left lp_step profiles m !! i).
Proof.
  induction profiles as [|p0 ps IH]; intros m Hm; [exact Hm |].
  cbn [fold_left]. apply IH.
  destruct (entry_id p0) as [i0|]; [| exact Hm].
  destruct (decide (i0 = i)) as [->|Hne].
  - rewrite lookup_insert_eq. eauto.
  - now rewrite lookup_insert_ne.
Qed.

(** Every loaded profile is a profile of the file with the defaults
    filled in. *)
Lemma load_profiles_origin (profiles_list : option (list profile_entry))
    (i : string) (entry : profile_entry) :
  load_profiles profiles_list !! i = Some entry ->
  exists profiles raw,
    profiles_list = Some profiles /\ In raw profiles
    /\ entry_id raw = Some i /\ entry = with_defaults i raw.
Proof.
  destruct profiles_list as [profiles|]; cbn [load_profiles].
  - intros H. apply lp_fold_origin in H as [H|(raw & H)].
    + rewrite lookup_empty in H. discriminate.
    + exists profiles, raw. now split.
  - rewrite lookup_empty. discriminate.
Qed.

(** X12.  A file that cannot be read gives the empty dictionary.
    Otherwise the dictionary holds, under an id, a profile of the file
    that carries this id, with the defaults filled in: its name is its id
    when the file gives none, its relevance is 0.0 when the file gives
    none, and what the file gives is kept.  An id is in the dictionary
    exactly when some profile of the file carries it, profiles without id
    are skipped, and of several profiles with one id the last is kept. *)
Theorem load_profiles_lookup (profiles : list profile_entry) (i : string) :
  load_profiles None = ∅ /\
  (forall entry,
     load_profiles (Some profiles) !! i = Some entry ->
     exists raw,
       In raw profiles /\ entry_id raw = Some i
       /\ entry_id entry = Some i
       /\ entry_name entry = Some (default i (entry_name raw))
       /\ entry_relevance entry = Some (default f0_0 (entry_relevance raw))
       /\ entry_explanation entry
          = Some (default "N/A" (entry_explanation raw))
       /\ entry_bio entry = entry_bio raw) /\
  (is_Some (load_profiles (Some profiles) !! i) <->
   exists raw, In raw profiles /\ entry_id raw = Some i) /\
  (forall earlier raw later,
     profiles = earlier ++ raw :: later ->
     entry_id raw = Some i ->
     Forall (fun p => entry_id p <> Some i) later ->
     load_profiles (Some profiles) !! i = Some (with_defaults i raw)).
Proof.
  split; [reflexivity |]. split; [| split].
  - intros entry H.
    apply load_profiles_origin in H as (ps & raw & [= <-] & Hin & Hid & ->).
    exists raw. now repeat split.
  - cbn [load_profiles]. split.
    + intros [entry H]. apply lp_fold_origin in H as [H|(raw & Hin & Hid & _)].
      * rewrite lookup_empty in H. discriminate.
      * now exists raw.
    + intros (raw & Hin & Hid).
      apply in_split in Hin as (earlier & later & ->).
      rewrite fold_left_app. cbn [fold_left]. apply lp_fold_keeps.
      rewrite Hid, lookup_insert_eq. eauto.
  - intros earlier raw later -> Hid Hlater. cbn [load_profiles].
    rewrite fold_left_app. cbn [fold_left].
    rewrite lp_fold_skip by exact Hlater.
    rewrite Hid. apply lookup_insert_eq.
Qed.

End LoadFacts.

Section RankFacts.

Lemma ltb_leb (x y : pyfloat) : ltb x y = true -> leb x y = true.
Proof.
  destruct x as [p| | |], y as [q| | |]; cbn; try discriminate; try reflexivity.
  destruct (Qle_bool q p) eqn:E; [discriminate |]. intros _.
  apply ColorFacts.Qle_bool_false in E. apply Qle_bool_iff. lra.
Qed.

Lemma ltb_false_leb (x y : pyfloat) :
  is_nan x = false -> is_nan y = false -> ltb x y = false -> leb y x = true.
Proof.
  destruct x as [p| | |], y as [q| | |]; cbn; try discriminate; try reflexivity.
  intros _ _ H. now apply negb_false_iff in H.
Qed.

Lemma leb_trans (x y z : pyfloat) :
  leb x y = true -> leb y z = true -> leb x z = true.
Proof.
  destruct x as [p| | |], y as [q| | |], z as [r| | |]; cbn;
    try discriminate; try reflexivity.
  rewrite !Qle_bool_iff. apply Qle_trans.
Qed.

Lemma ltb_same_score (x y s : pyfloat) :
  same_score x s = true -> same_score y s = true -> ltb x y = false.
Proof.
  unfold same_score. rewrite !andb_true_iff. intros [H1 H2] [H3 H4].
  pose proof (leb_trans _ _ _ H3 H2) as Hyx.
  destruct x as [p| | |], y as [q| | |]; cbn in *;
    try discriminate; try reflexivity.
  now rewrite Hyx.
Qed.

Lemma insert_desc_perm (x : string * pyfloat) (l : list (string * pyfloat)) :
  Permutation (insert_desc x l) (x :: l).
Proof.
  induction l as [|y l IH]; cbn [insert_desc]; [reflexivity |].
  destruct (ltb x.2 y.2); [| reflexivity].
  rewrite IH. apply perm_swap.
Qed.

Lemma sort_desc_perm (l : list (string * pyfloat)) :
  Permutation (sort_desc l) l.
Proof.
  induction l as [|x l IH]; [reflexivity |].
  cbn [sort_desc fold_right]. fold (sort_desc l).
  rewrite insert_desc_perm. now constructor.
Qed.

Lemma insert_desc_sorted (x : string * pyfloat)
    (l : list (string * pyfloat)) :
  is_nan x.2 = false -> Forall (fun y => is_nan y.2 = false) l ->
  StronglySorted desc l -> StronglySorted desc (insert_desc x l).
Proof.
  intros Hx Hl Hs. induction Hs as [|y l Hs IH Hy]; cbn [insert_desc].
  - constructor; constructor.
  - apply Forall_cons_iff in Hl as [Hny Hl].
    destruct (ltb x.2 y.2) eqn:E.
    + constructor; [now apply IH |].
      eapply Permutation_Forall;
        [symmetry; apply insert_desc_perm |].
      constructor; [| exact Hy]. unfold desc. now apply ltb_leb.
    + constructor; [now constructor |].
      assert (desc x y) as Hxy by (now apply ltb_false_leb).
      constructor; [exact Hxy |].
      eapply List.Forall_impl; [| exact Hy].
      intros z Hz. unfold desc in *. eapply leb_trans; eassumption.
Qed.

Lemma sort_desc_sorted (l : list (string * pyfloat)) :
  Forall (fun y => is_nan y.2 = false) l -> StronglySorted desc (sort_desc l).
Proof.
  induction 1 as [|x l Hx Hl IH]; [constructor |].
  cbn [sort_desc fold_right]. fold (sort_desc l).
  apply insert_desc_sorted; [exact Hx | | exact IH].
  eapply Permutation_Forall; [symmetry; apply sort_desc_perm | exact Hl].
Qed.

Lemma insert_desc_stable (s : pyfloat) (x : string * pyfloat)
    (l : list (string * pyfloat)) :
  List.filter (fun y => same_score y.2 s) (insert_desc x l)
  = List.filter (fun y => same_score y.2 s) (x :: l).
Proof.
  induction l as [|y l IH]; cbn [insert_desc]; [reflexivity |].
  destruct (ltb x.2 y.2) eqn:E; [| reflexivity].
  cbn [List.filter] in *. rewrite IH.
  destruct (same_score x.2 s) eqn:Ex, (same_score y.2 s) eqn:Ey;
    try reflexivity.
  rewrite (ltb_same_score _ _ _ Ex Ey) in E. discriminate.
Qed.

Lemma sort_desc_stable (s : pyfloat) (l : list (string * pyfloat)) :
  List.filter (fun y => same_score y.2 s) (sort_desc l)
  = List.filter (fun y => same_score y.2 s) l.
Proof.
  induction l as [|x l IH]; [reflexivity |].
  cbn [sort_desc fold_right]. fold (sort_desc l).
  rewrite insert_desc_stable. cbn [List.filter]. now rewrite IH.
Qed.

Lemma candidates_omap (all_profiles_data : gmap string profile_entry)
    (detected_ids : list string) :
  candidate_profiles_with_scores detected_ids all_profiles_data
  = omap (scored all_profiles_data) detected_ids.
Proof.
  unfold candidate_profiles_with_scores.
  assert (forall ids acc,
            fold_left
              (fun acc pid =>
                 match all_profiles_data !! pid with
                 | Some entry =>
                     match entry_relevance entry with
                     | Some relevance => acc ++ [(pid, relevance)]
                     | None => acc
                     end
                 | None => acc
                 end) ids acc
            = acc ++ omap (scored all_profiles_data) ids) as Hgen.
  { induction ids as [|pid ids IH]; intros acc; cbn [fold_left].
    - now rewrite app_nil_r.
    - rewrite IH.
      change (omap (scored all_profiles_data) (pid :: ids))
        with (match scored all_profiles_data pid with
              | Some y => y :: omap (scored all_profiles_data) ids
              | None => omap (scored all_profiles_data) ids
              end).
      unfold scored at 2.
      destruct (all_profiles_data !! pid) as [entry|]; [| reflexivity].
      destruct (entry_relevance entry); [| reflexivity].
      now rewrite <- app_assoc. }
  apply Hgen.
Qed.

(** The early exits of [rank_profiles] return what the general path
    would. *)
Lemma rank_profiles_eq (detected_ids : list string)
    (all_profiles_data : gmap string profile_entry) (top_k : Z) :
  rank_profiles detected_ids all_profiles_data top_k
  = slice_to top_k
      (sort_desc
         (candidate_profiles_with_scores detected_ids all_profiles_data)).
Proof.
  assert (forall k, slice_to k ([] : list (string * pyfloat)) = []) as Hnil.
  { intros k. unfold slice_to. destruct (0 <=? k); apply take_nil. }
  unfold rank_profiles. destruct detected_ids as [|pid ids]; [now rewrite Hnil |].
  destruct (decide (all_profiles_data = ∅)) as [->|Hne].
  - rewrite candidates_omap.
    assert (omap (scored ∅) (pid :: ids) = []) as ->; [| now rewrite Hnil].
    generalize (pid :: ids). intros l. induction l as [|a l IH]; [reflexivity |].
    change (omap (scored ∅) (a :: l))
      with (match scored ∅ a with
            | Some y => y :: omap (scored ∅) l
            | None => omap (scored ∅) l
            end).
    unfold scored at 1. now rewrite lookup_empty.
  - destruct (candidate_profiles_with_scores (pid :: ids) all_profiles_data);
      [now rewrite Hnil | reflexivity].
Qed.

Lemma strongly_sorted_app (l1 l2 : list (string * pyfloat)) :
  StronglySorted desc (l1 ++ l2) ->
  StronglySorted desc l1
  /\ forall x y, In x l1 -> In y l2 -> desc x y.
Proof.
  induction l1 as [|a l1 IH]; cbn [app]; intros H.
  - split; [constructor | intros x y []].
  - apply StronglySorted_inv in H as [Hs Ha]. destruct (IH Hs) as [H1 H2].
    apply Forall_app in Ha as [Ha1 Ha2]. split.
    + now constructor.
    + intros x y [<-|Hx] Hy; [| now apply H2].
      eapply List.Forall_forall in Ha2; eassumption.
Qed.

Lemma slice_to_take {A : Type} (k : Z) (l : list A) :
  exists n, slice_to k l = take n l
            /\ n = if 0 <=? k then Z.to_nat k
                   else (length l - Z.to_nat (- k))%nat.
Proof. unfold slice_to. destruct (0 <=? k); eauto. Qed.

End RankFacts.

Section RankTheorems.

(** X13.  Every pair that [rank_profiles] returns is a detected id
    together with the relevance stored for it in the profiles: nothing is
    invented, and an id without profile or without relevance is never
    returned.  With no detected id, or with no profile, the ranking is
    empty. *)
Theorem rank_profiles_sound (detected_ids : list string)
    (all_profiles_data : gmap string profile_entry) (top_k : Z) :
  (forall pid score,
     In (pid, score) (rank_profiles detected_ids all_profiles_data top_k) ->
     In pid detected_ids
     /\ exists entry,
          all_profiles_data !! pid = Some entry
          /\ entry_relevance entry = Some score) /\
  rank_profiles [] all_profiles_data top_k = [] /\
  rank_profiles detected_ids ∅ top_k = [].
Proof.
  split; [| split].
  - intros pid score. rewrite rank_profiles_eq.
    destruct (slice_to_take top_k
                (sort_desc
                   (candidate_profiles_with_scores detected_ids
                      all_profiles_data))) as (n & -> & _).
    intros Hin.
    assert (In (pid, score)
              (candidate_profiles_with_scores detected_ids all_profiles_data))
      as Hc.
    { eapply Permutation_in; [apply sort_desc_perm |].
      rewrite <- (take_drop n (sort_desc _)). apply in_or_app. now left. }
    rewrite candidates_omap in Hc.
    apply list_elem_of_In, list_elem_of_omap in Hc as (pid' & Hpid & Hs).
    unfold scored in Hs.
    destruct (all_profiles_data !! pid') as [entry|] eqn:He; [| discriminate].
    destruct (entry_relevance entry) as [r|] eqn:Hr; [| discriminate].
    injection Hs as -> ->. split; [now apply list_elem_of_In | eauto].
  - reflexivity.
  - unfold rank_profiles. destruct detected_ids; [reflexivity |].
    now destruct (decide ((∅ : gmap string profile_entry) = ∅)).
Qed.

(** X14.  With [n] detected ids that have a profile with a relevance
    (counted with repetitions), [rank_profiles] returns [min(top_k, n)]
    pairs when [top_k] is not negative, and [max(0, n + top_k)] pairs when
    [top_k] is negative, the slice [[:top_k]] then counting from the end.
    So the ranking is empty exactly when [n] is 0, [top_k] is 0, or
    [top_k <= -n].  The count does not depend on the scores. *)
Theorem rank_profiles_length (detected_ids : list string)
    (all_profiles_data : gmap string profile_entry) (top_k : Z) :
  let n := length (omap (scored all_profiles_data) detected_ids) in
  let ranked := rank_profiles detected_ids all_profiles_data top_k in
  (n <= length detected_ids)%nat /\
  length ranked
  = (if 0 <=? top_k then Nat.min (Z.to_nat top_k) n
     else (n - Z.to_nat (- top_k))%nat) /\
  (ranked = [] <-> n = 0%nat \/ top_k = 0 \/ top_k <= - Z.of_nat n).
Proof.
  cbn zeta.
  assert (length (rank_profiles detected_ids all_profiles_data top_k)
          = if 0 <=? top_k
            then Nat.min (Z.to_nat top_k)
                   (length (omap (scored all_profiles_data) detected_ids))
            else (length (omap (scored all_profiles_data) detected_ids)
                  - Z.to_nat (- top_k))%nat) as Hlength.
  { rewrite rank_profiles_eq, candidates_omap.
    set (cands := omap (scored all_profiles_data) detected_ids).
    assert (length (sort_desc cands) = length cands) as Hlen
      by (apply Permutation_length, sort_desc_perm).
    unfold slice_to. destruct (0 <=? top_k); rewrite length_take, Hlen; lia. }
  split; [apply omap_length_le |]. split; [exact Hlength |].
  rewrite <- length_zero_iff_nil, Hlength.
  destruct (Z.leb_spec 0 top_k); lia.
Qed.

(** X15.  When no stored relevance is NaN, the ranking is in order of
    non-increasing score, and it is a top of the candidates: the
    candidates are the returned pairs together with dropped ones, and no
    dropped pair has a higher score than a returned one. *)
Theorem rank_profiles_sorted_top (detected_ids : list string)
    (all_profiles_data : gmap string profile_entry) (top_k : Z) :
  (forall pid entry,
     all_profiles_data !! pid = Some entry ->
     entry_relevance entry <> Some NaN) ->
  let ranked := rank_profiles detected_ids all_profiles_data top_k in
  StronglySorted desc ranked /\
  exists dropped,
    Permutation (omap (scored all_profiles_data) detected_ids)
      (ranked ++ dropped)
    /\ forall x y, In x ranked -> In y dropped -> leb y.2 x.2 = true.
Proof.
  intros Hnan. cbn zeta. rewrite rank_profiles_eq, candidates_omap.
  set (cands := omap (scored all_profiles_data) detected_ids).
  assert (Forall (fun y : string * pyfloat => is_nan y.2 = false) cands)
    as Hc.
  { apply List.Forall_forall. intros [pid r] Hin.
    apply list_elem_of_In, list_elem_of_omap in Hin as (pid' & _ & Hs).
    unfold scored in Hs.
    destruct (all_profiles_data !! pid') as [entry|] eqn:He; [| discriminate].
    destruct (entry_relevance entry) as [r'|] eqn:Hr; [| discriminate].
    injection Hs as -> ->. specialize (Hnan pid entry He).
    destruct r; try reflexivity. congruence. }
  pose proof (sort_desc_sorted cands Hc) as Hsorted.
  destruct (slice_to_take top_k (sort_desc cands)) as (n & -> & _).
  rewrite <- (take_drop n (sort_desc cands)) in Hsorted.
  apply strongly_sorted_app in Hsorted as [Htake Htop].
  split; [exact Htake |].
  exists (drop n (sort_desc cands)). split.
  - rewrite take_drop. symmetry. apply sort_desc_perm.
  - intros x y Hx Hy. now apply Htop.
Qed.

(** X16.  When no stored relevance is NaN, the ranking is stable: the
    returned pairs of one score come in the order of detection, as a
    prefix of the candidates of that score. *)
Theorem rank_profiles_stable (detected_ids : list string)
    (all_profiles_data : gmap string profile_entry) (top_k : Z)
    (s : pyfloat) :
  (forall pid entry,
     all_profiles_data !! pid = Some entry ->
     entry_relevance entry <> Some NaN) ->
  List.filter (fun x : string * pyfloat => same_score x.2 s)
    (rank_profiles detected_ids all_profiles_data top_k)
  `prefix_of`
  List.filter (fun x : string * pyfloat => same_score x.2 s)
    (omap (scored all_profiles_data) detected_ids).
Proof.
  intros _. rewrite rank_profiles_eq, candidates_omap.
  set (cands := omap (scored all_profiles_data) detected_ids).
  destruct (slice_to_take top_k (sort_desc cands)) as (n & -> & _).
  rewrite <- (sort_desc_stable s cands).
  rewrite <- (take_drop n (sort_desc cands)) at 2.
  rewrite List.filter_app. now apply prefix_app_r.
Qed.

End RankTheorems.

(** ** Detection and the pipeline *)

Section PipelineFacts.

Context (getTextSize : string -> Z * Z) (format_score : pyfloat -> string).
Context (utf8_decode : list Byte.byte -> option string).

(** The detection made from a decoded object. *)
Local Abbreviation detection_of :=
  (fun obj : decoded_object =>
     match utf8_decode (obj_data obj) with
     | Some qr_id =>
         Some {| det_id := Some qr_id; det_bbox := Some (obj_rect obj) |}
     | None => None
     end).

Lemma detect_qr_codes_omap (objs : list decoded_object) :
  detect_qr_codes utf8_decode (Some objs) = omap detection_of objs.
Proof.
  unfold detect_qr_codes.
  assert (forall l acc,
            fold_left
              (fun detections obj =>
                 match utf8_decode (obj_data obj) with
                 | None => detections
                 | Some qr_id =>
                     detections
                       ++ [{| det_id := Some qr_id;
                              det_bbox := Some (obj_rect obj) |}]
                 end) l acc
            = acc ++ omap detection_of l) as Hgen.
  { induction l as [|obj l IH]; intros acc; cbn [fold_left].
    - now rewrite app_nil_r.
    - rewrite IH.
      change (omap detection_of (obj :: l))
        with (match detection_of obj with
              | Some y => y :: omap detection_of l
              | None => omap detection_of l
              end).
      cbn beta.
      destruct (utf8_decode (obj_data obj)); [| reflexivity].
      now rewrite <- app_assoc. }
  apply Hgen.
Qed.

Lemma detect_qr_codes_usable (decoded_objects : option (list decoded_object))
    (det : detection) :
  In det (detect_qr_codes utf8_decode decoded_objects) ->
  exists qr_id obj,
    det = {| det_id := Some qr_id; det_bbox := Some (obj_rect obj) |}
    /\ utf8_decode (obj_data obj) = Some qr_id
    /\ decoded_objects <> None.
Proof.
  destruct decoded_objects as [objs|]; [| intros []].
  rewrite detect_qr_codes_omap. intros Hin.
  apply list_elem_of_In, list_elem_of_omap in Hin as (obj & _ & Hobj).
  destruct (utf8_decode (obj_data obj)) as [qr_id|] eqn:Hd; [| discriminate].
  injection Hobj as <-. exists qr_id, obj. now repeat split.
Qed.

(** X17.  [detect_qr_codes] returns nothing for an image that cannot be
    read; otherwise it returns, in order, one detection for every decoded
    object whose data is valid UTF-8, with the decoded text as id and the
    rectangle of the object as bounding box, and skips the other objects.
    So every detection carries both keys, and the list of detected ids of
    the pipeline is always defined. *)
Theorem detect_qr_codes_detections
    (decoded_objects : option (list decoded_object)) :
  detect_qr_codes utf8_decode None = [] /\
  (forall objs,
     decoded_objects = Some objs ->
     detect_qr_codes utf8_decode decoded_objects
     = omap
         (fun obj =>
            (fun qr_id =>
               {| det_id := Some qr_id; det_bbox := Some (obj_rect obj) |})
              <$> utf8_decode (obj_data obj))
         objs
     /\ (length (detect_qr_codes utf8_decode decoded_objects)
         <= length objs)%nat) /\
  Forall (fun det => is_Some (det_id det) /\ is_Some (det_bbox det))
    (detect_qr_codes utf8_decode decoded_objects) /\
  is_Some (mapM det_id (detect_qr_codes utf8_decode decoded_objects)).
Proof.
  assert (Forall (fun det => is_Some (det_id det) /\ is_Some (det_bbox det))
            (detect_qr_codes utf8_decode decoded_objects)) as Hall.
  { apply List.Forall_forall. intros det Hin.
    apply detect_qr_codes_usable in Hin as (qr_id & obj & -> & _).
    cbn. eauto. }
  split; [reflexivity |]. split; [| split; [exact Hall |]].
  - intros objs ->. rewrite detect_qr_codes_omap. split.
    + apply list_omap_ext. clear Hall.
      induction objs as [|obj objs IH]; constructor.
      * now destruct (utf8_decode (obj_data obj)).
      * exact IH.
    + apply omap_length_le.
  - apply mapM_is_Some. eapply List.Forall_impl; [| exact Hall].
    intros det [H _]. exact H.
Qed.

End PipelineFacts.

Section PipelineTheorems.

Context (getTextSize : string -> Z * Z) (format_score : pyfloat -> string).
Context (utf8_decode : list Byte.byte -> option string).

Lemma rank_profiles_bounds (detected_ids : list string)
    (all_profiles_data : gmap string profile_entry) (top_k : Z) :
  (forall item,
     In item (rank_profiles detected_ids all_profiles_data top_k) ->
     In item.1 detected_ids) /\
  (length (rank_profiles detected_ids all_profiles_data top_k)
   <= length detected_ids)%nat /\
  (0 <= top_k ->
   Z.of_nat (length (rank_profiles detected_ids all_profiles_data top_k))
   <= top_k).
Proof.
  rewrite rank_profiles_eq, candidates_omap.
  set (cands := omap (scored all_profiles_data) detected_ids).
  assert (length (sort_desc cands) = length cands) as Hlen
    by (apply Permutation_length, sort_desc_perm).
  pose proof (omap_length_le (scored all_profiles_data) detected_ids) as Hle.
  fold cands in Hle.
  destruct (slice_to_take top_k (sort_desc cands)) as (n & -> & Hn).
  split; [| split].
  - intros item Hin.
    assert (In item cands) as Hc.
    { eapply Permutation_in; [apply sort_desc_perm |].
      rewrite <- (take_drop n (sort_desc cands)). apply in_or_app. now left. }
    apply list_elem_of_In, list_elem_of_omap in Hc as (pid & Hpid & Hs).
    unfold scored in Hs.
    destruct (all_profiles_data !! pid) as [entry|]; [| discriminate].
    destruct (entry_relevance entry); [| discriminate].
    injection Hs as <-. now apply list_elem_of_In.
  - rewrite length_take. lia.
  - intros Hk. rewrite length_take.
    destruct (Z.leb_spec 0 top_k); [subst n; lia | lia].
Qed.

Lemma mapM_in {A B : Type} (f : A -> option B) (l : list A) (k : list B)
    (y : B) :
  mapM f l = Some k -> In y k -> exists x, In x l /\ f x = Some y.
Proof.
  intros H%mapM_Some. induction H as [|x y' l k Hxy _ IH]; intros Hin.
  - destruct Hin.
  - destruct Hin as [<-|Hin].
    + exists x. split; [now left | exact Hxy].
    + destruct (IH Hin) as (x' & Hx' & Hf). exists x'. split; [now right | exact Hf].
Qed.

Lemma anchor_boxes_all (dets : gmap string detection)
    (ranked_profiles : list (string * pyfloat)) :
  (forall item,
     In item ranked_profiles ->
     exists det, dets !! item.1 = Some det /\ is_Some (det_bbox det)) ->
  length (anchor_boxes dets ranked_profiles) = length ranked_profiles.
Proof.
  unfold anchor_boxes.
  induction ranked_profiles as [|item rest IH]; intros Hall; [reflexivity |].
  destruct (Hall item (or_introl eq_refl)) as (det & Hdet & [b Hb]).
  match goal with
  | |- length (omap ?f (item :: rest)) = _ =>
      change (omap f (item :: rest))
        with (match f item with
              | Some y => y :: omap f rest
              | None => omap f rest
              end)
  end.
  cbn beta. rewrite Hdet, Hb. destruct b as [[[qr_x qr_y] qr_w] qr_h].
  cbn [length]. f_equal. apply IH. intros it Hit. apply Hall. now right.
Qed.

(** X18.  The pipeline never fails on the id of a detection.  When it
    annotates, text heights being non-negative, every ranked profile has
    its detection: the image carries as many text blocks as anchor boxes,
    at least one, at most [top_k] when [top_k] is not negative, and at
    most one per decoded object. *)
Theorem pipeline_blocks (img_w img_h : Z)
    (decoded_objects : option (list decoded_object))
    (profiles_list : option (list profile_entry)) (top_k : Z) :
  0 <= snd (getTextSize "Tg") ->
  match
    run_image_processing_pipeline getTextSize format_score utf8_decode
      img_w img_h decoded_objects profiles_list top_k
  with
  | KeyErrorId => False
  | Annotated st =>
      (1 <= length (occupied_regions st))%nat
      /\ length (occupied_regions st)
         = length (List.filter is_anchor_box (image st))
      /\ (0 <= top_k -> Z.of_nat (length (occupied_regions st)) <= top_k)
      /\ (forall objs,
            decoded_objects = Some objs ->
            (length (occupied_regions st) <= length objs)%nat)
  | _ => True
  end.
Proof.
  intros Hh. unfold run_image_processing_pipeline.
  set (detections := detect_qr_codes utf8_decode decoded_objects).
  destruct detections as [|d0 ds] eqn:Hdets; [exact I |].
  rewrite <- Hdets.
  assert (forall det, In det detections ->
            exists qr_id b, det_id det = Some qr_id /\ det_bbox det = Some b)
    as Husable.
  { intros det Hin. subst detections.
    apply detect_qr_codes_usable in Hin as (qr_id & obj & -> & _). cbn. eauto. }
  destruct (mapM det_id detections) as [detected_ids|] eqn:Hids.
  2:{ assert (is_Some (mapM det_id detections)) as [ids Hsome].
      { apply mapM_is_Some. apply List.Forall_forall. intros det Hin.
        destruct (Husable det Hin) as (qr_id & _ & Hq & _).
        unfold compose. rewrite Hq. eauto. }
      congruence. }
  destruct (decide (load_profiles profiles_list = ∅)); [exact I |].
  set (ranked := rank_profiles detected_ids (load_profiles profiles_list) top_k).
  destruct ranked as [|r0 rs] eqn:Hranked; [exact I |].
  rewrite <- Hranked.
  destruct (rank_profiles_bounds detected_ids (load_profiles profiles_list)
              top_k) as (Hsub & Hlen & Hk).
  fold ranked in Hsub, Hlen, Hk.
  unfold annotate_image.
  destruct (annotate_from_adds getTextSize format_score img_w img_h
              (detections_map detections)
              (entry_profile <$> load_profiles profiles_list) ranked
              {| image := []; occupied_regions := [] |})
    as (ops & regs & -> & -> & _ & Hanchor & Hrest).
  destruct (Hrest Hh) as [_ Hcount].
  cbn [app image occupied_regions]. rewrite Hanchor, Hcount.
  assert (length (anchor_boxes (detections_map detections) ranked)
          = length ranked) as ->.
  { apply anchor_boxes_all. intros item Hin.
    destruct (mapM_in _ _ _ _ Hids (Hsub item Hin)) as (det & Hdet & Hid).
    destruct (Husable det Hdet) as (qr_id & b & Hid' & Hb).
    destruct (detections_map_has detections item.1 det Hdet) as (d & Hd & Hu).
    { split; [exact Hid | rewrite Hb; eauto]. }
    exists d. split; [exact Hd | apply Hu]. }
  assert (length detected_ids = length detections) as Hsame.
  { apply mapM_Some in Hids. symmetry. eapply Forall2_length. exact Hids. }
  split; [rewrite Hranked; cbn [length]; lia |].
  split; [reflexivity |]. split; [exact Hk |].
  intros objs Hobjs.
  assert (length detections <= length objs)%nat.
  { subst detections. rewrite Hobjs, detect_qr_codes_omap.
    apply omap_length_le. }
  lia.
Qed.

(** X19.  In the pipeline the profiles that [annotate_image] reads come
    from [load_profiles]: the name shown for a loaded profile is the name
    given in the file, or the id when the file gives none; its bio is the
    one of the file, or the placeholder text when the file gives none;
    and an id that is not in the file is shown with the id as name and
    the placeholder as bio. *)
Theorem loaded_profile_display (profiles : list profile_entry)
    (pid : string) :
  let all_profiles_data := load_profiles (Some profiles) in
  let profiles_data := entry_profile <$> all_profiles_data in
  (forall entry,
     all_profiles_data !! pid = Some entry ->
     exists raw,
       In raw profiles /\ entry_id raw = Some pid
       /\ name_to_display profiles_data pid = default pid (entry_name raw)
       /\ bio_to_display profiles_data pid
          = default "Bio not available." (entry_bio raw)) /\
  (all_profiles_data !! pid = None ->
   name_to_display profiles_data pid = pid
   /\ bio_to_display profiles_data pid = "Bio not available.").
Proof.
  cbn zeta. unfold name_to_display, bio_to_display.
  rewrite lookup_fmap. split.
  - intros entry Hentry. rewrite Hentry. cbn [fmap option_fmap option_map].
    apply load_profiles_origin in Hentry
      as (ps & raw & [= <-] & Hin & Hid & ->).
    exists raw. now repeat split.
  - intros ->. now split.
Qed.

End PipelineTheorems.

(** ** Further concrete runs *)

Lemma one_block_per_processed_item_witness :
  length
    (occupied_regions
       (annotate_image sample_getTextSize sample_format 1024 768
          [("id1", sample_score); ("id9", sample_score)]
          [sample_detection (50, 50, 60, 60)] (sample_profiles "")))
  = length
      (anchor_boxes (detections_map [sample_detection (50, 50, 60, 60)])
         [("id1", sample_score); ("id9", sample_score)]).
Proof.
  destruct (one_block_per_processed_item sample_getTextSize sample_format
              1024 768 [("id1", sample_score); ("id9", sample_score)]
              [sample_detection (50, 50, 60, 60)] (sample_profiles ""))
    as [H _]; [cbn; lia | exact H].
Defined.

Lemma no_fallback_no_overlap_witness :
  pairwise_disjoint
    (occupied_regions
       (annotate_image sample_getTextSize sample_format 1024 768
          [("id1", sample_score); ("id2", sample_score)]
          [sample_detection (50, 50, 60, 60);
           {| det_id := Some "id2"; det_bbox := Some (70, 70, 60, 60) |}]
          (sample_profiles ""))).
Proof.
  destruct (no_fallback_no_overlap sample_getTextSize sample_format 1024 768
              [("id1", sample_score); ("id2", sample_score)]
              [sample_detection (50, 50, 60, 60);
               {| det_id := Some "id2"; det_bbox := Some (70, 70, 60, 60) |}]
              (sample_profiles ""))
    as [H _]; [vm_compute; reflexivity | exact H].
Defined.

Lemma draw_block_layout_witness :
  snd (draw_multiline_text_with_background sample_getTextSize []
         ["Name: Alice"; "Bio:"] (185, 100) font_color text_bg_color)
  = (185 - 5, 100 - 5,
     185 - 5 + fst (get_text_block_dimensions sample_getTextSize
                      ["Name: Alice"; "Bio:"]),
     100 - 5 + snd (get_text_block_dimensions sample_getTextSize
                      ["Name: Alice"; "Bio:"])).
Proof.
  destruct (draw_block_layout sample_getTextSize [] "Name: Alice" ["Bio:"]
              185 100 font_color text_bg_color) as (_ & H & _);
    [cbn; lia | exact H].
Defined.

Lemma rank_profiles_sorted_top_witness :
  StronglySorted desc
    (rank_profiles ["id1"; "id2"; "id3"] (load_profiles (Some sample_entries))
       2).
Proof.
  destruct (rank_profiles_sorted_top ["id1"; "id2"; "id3"]
              (load_profiles (Some sample_entries)) 2) as [H _]; [| exact H].
  intros pid entry Hentry.
  apply load_profiles_origin in Hentry as (ps & raw & [= <-] & Hin & _ & ->).
  destruct Hin as [<-|[<-|[<-|[]]]]; discriminate.
Defined.

Lemma pipeline_blocks_witness :
  exists st,
    run_image_processing_pipeline sample_getTextSize sample_format
      ascii_decode 1024 768 (Some sample_objects) (Some sample_entries) 2
    = Annotated st
    /\ Z.of_nat (length (occupied_regions st)) <= 2.
Proof.
  pose proof (pipeline_blocks sample_getTextSize sample_format ascii_decode
                1024 768 (Some sample_objects) (Some sample_entries) 2) as H.
  destruct (run_image_processing_pipeline sample_getTextSize sample_format
              ascii_decode 1024 768 (Some sample_objects)
              (Some sample_entries) 2) as [| | | |st] eqn:Hrun;
    try (vm_compute in Hrun; discriminate).
  exists st. split; [reflexivity |].
  destruct H as (_ & _ & Hk & _); [cbn; lia |]. apply Hk. lia.
Defined.

(** ** The configuration *)

Section ConfigFacts.

Lemma default_output_dir :
  DEFAULT_CONFIG !! "OUTPUT_IMAGE_DIR" = Some (JStr "assets/annotated_images/").
Proof. vm_compute. reflexivity. Qed.

Lemma default_no_legacy_key : DEFAULT_CONFIG !! "OUTPUT_IMAGE_PATH" = None.
Proof. vm_compute. reflexivity. Qed.

Lemma lookup_user_wins (user_config config : gmap string jvalue)
    (k : string) :
  (user_config ∪ config) !! k
  = match user_config !! k with
    | Some v => Some v
    | None => config !! k
    end.
Proof.
  destruct (user_config !! k) as [v|] eqn:Hk.
  - now apply lookup_union_Some_l.
  - now apply lookup_union_r.
Qed.

(** X20.  Whatever the file, every key of the default configuration is
    in the configuration that [load_config] returns, so a lookup of
    [TOP_K_RESULTS] never falls back on its default argument.  A missing
    or unreadable file gives the default configuration; the defaults are
    handed to [save_config] exactly when the file is missing. *)
Theorem load_config_defaults (file : config_file) :
  (forall k, is_Some (DEFAULT_CONFIG !! k) ->
             is_Some ((load_config file).1 !! k)) /\
  is_Some ((load_config file).1 !! "TOP_K_RESULTS") /\
  (file = ConfigMissing \/ file = ConfigUnreadable ->
   (load_config file).1 = DEFAULT_CONFIG) /\
  ((load_config file).2 = Some DEFAULT_CONFIG <-> file = ConfigMissing) /\
  (file <> ConfigMissing -> (load_config file).2 = None).
Proof.
  assert (forall k, is_Some (DEFAULT_CONFIG !! k) ->
                    is_Some ((load_config file).1 !! k)) as Hdefaults.
  { intros k Hk. unfold load_config.
    destruct file as [| |user_config]; cbn [fst]; try exact Hk.
    destruct (convert_legacy_key user_config) as [u|]; cbn [fst];
      [| exact Hk].
    rewrite lookup_user_wins. destruct (u !! k); [eauto | exact Hk]. }
  split; [exact Hdefaults |]. split.
  { apply Hdefaults. vm_compute. eauto. }
  split; [| split].
  - intros [->| ->]; reflexivity.
  - unfold load_config. destruct file as [| |user_config]; cbn [snd].
    + now split.
    + split; discriminate.
    + destruct (convert_legacy_key user_config); cbn [snd];
        split; discriminate.
  - unfold load_config. destruct file as [| |user_config]; cbn [snd];
      [congruence | reflexivity |].
    now destruct (convert_legacy_key user_config).
Qed.

(** X21.  For a file holding an object that sets [OUTPUT_IMAGE_DIR] or
    does not have the legacy key [OUTPUT_IMAGE_PATH], every value of the
    file overrides the default of its key, keys unknown to the defaults
    are kept, and every other key has its default. *)
Theorem load_config_user_wins (user_config : gmap string jvalue) :
  is_Some (user_config !! "OUTPUT_IMAGE_DIR")
  \/ user_config !! "OUTPUT_IMAGE_PATH" = None ->
  forall k,
    (load_config (ConfigObject user_config)).1 !! k
    = match user_config !! k with
      | Some v => Some v
      | None => DEFAULT_CONFIG !! k
      end.
Proof.
  intros Hno k. unfold load_config, convert_legacy_key.
  destruct Hno as [[v Hdir]|Hpath].
  - rewrite Hdir. cbn [fst]. apply lookup_user_wins.
  - rewrite Hpath.
    destruct (user_config !! "OUTPUT_IMAGE_DIR"); cbn [fst];
      apply lookup_user_wins.
Qed.

(** X22.  For a file holding an object with the legacy key
    [OUTPUT_IMAGE_PATH] and without [OUTPUT_IMAGE_DIR]: when the legacy
    value is a string, the legacy key is not in the result,
    [OUTPUT_IMAGE_DIR] is the directory name of the legacy path, or its
    default when that name is empty, and every other key is as the file
    or else the defaults give it; when the legacy value is not a string,
    the whole file is discarded and the defaults are returned. *)
Theorem load_config_legacy_key (user_config : gmap string jvalue)
    (legacy_output_path : jvalue) :
  user_config !! "OUTPUT_IMAGE_DIR" = None ->
  user_config !! "OUTPUT_IMAGE_PATH" = Some legacy_output_path ->
  let config := (load_config (ConfigObject user_config)).1 in
  match legacy_output_path with
  | JStr path =>
      config !! "OUTPUT_IMAGE_PATH" = None
      /\ config !! "OUTPUT_IMAGE_DIR"
         = Some (JStr (if String.eqb (dirname path) ""
                       then "assets/annotated_images/"
                       else dirname path))
      /\ forall k,
           k <> "OUTPUT_IMAGE_PATH" -> k <> "OUTPUT_IMAGE_DIR" ->
           config !! k
           = match user_config !! k with
             | Some v => Some v
             | None => DEFAULT_CONFIG !! k
             end
  | _ => config = DEFAULT_CONFIG
  end.
Proof.
  intros Hdir Hpath. cbn zeta. unfold load_config, convert_legacy_key.
  rewrite Hdir, Hpath.
  destruct legacy_output_path as [| | | |path| |]; try reflexivity.
  destruct (String.eqb (dirname path) "") eqn:Hd; cbn [negb fst].
  - split; [| split].
    + rewrite lookup_user_wins, lookup_delete_eq. apply default_no_legacy_key.
    + rewrite lookup_user_wins, lookup_delete_ne by discriminate.
      rewrite Hdir. apply default_output_dir.
    + intros k Hk1 Hk2. rewrite lookup_user_wins.
      now rewrite lookup_delete_ne by congruence.
  - split; [| split].
    + rewrite lookup_user_wins, lookup_insert_ne by discriminate.
      rewrite lookup_delete_eq. apply default_no_legacy_key.
    + rewrite lookup_user_wins. now rewrite lookup_insert_eq.
    + intros k Hk1 Hk2. rewrite lookup_user_wins.
      rewrite lookup_insert_ne by congruence.
      now rewrite lookup_delete_ne by congruence.
Qed.

Lemma upto_last_sep_none (f : string) :
  contains "/" f = false -> upto_last_sep f = "".
Proof.
  induction f as [|c f IH]; [reflexivity |]. cbn [contains upto_last_sep].
  intros [Hc Hf]%orb_false_iff. rewrite (IH Hf), Hc. reflexivity.
Qed.

Lemma upto_last_sep_app (a b : string) :
  upto_last_sep b <> "" -> upto_last_sep (a +:+ b) = a +:+ upto_last_sep b.
Proof.
  intros Hb. induction a as [|c a IH]; [reflexivity |].
  rewrite !PyStrFacts.append_cons. cbn [upto_last_sep]. rewrite IH.
  assert (String.eqb (a +:+ upto_last_sep b) "" = false) as ->.
  { apply String.eqb_neq. destruct a; [exact Hb | discriminate]. }
  now rewrite orb_true_r.
Qed.

Lemma all_sep_app_l (a b : string) :
  all_sep a = false -> all_sep (a +:+ b) = false.
Proof.
  induction a as [|c a IH]; [discriminate |].
  rewrite PyStrFacts.append_cons. cbn [all_sep].
  intros [Hc|Ha]%andb_false_iff; [now rewrite Hc |].
  rewrite (IH Ha). apply andb_false_r.
Qed.

Lemma ends_with_all_sep (d : string) :
  d <> "" -> ends_with "/" d = false -> all_sep d = false.
Proof.
  induction d as [|c d IH]; [congruence |]. intros _.
  destruct d as [|c' d'].
  - cbn. intros ->. reflexivity.
  - intros He.
    change (ends_with "/" (String c (String c' d')))
      with (ends_with "/" (String c' d')) in He.
    change (all_sep (String c (String c' d')))
      with (Ascii.eqb c "/" && all_sep (String c' d')).
    rewrite (IH ltac:(discriminate) He). apply andb_false_r.
Qed.

Lemma rstrip_sep_dir (d : string) :
  d <> "" -> ends_with "/" d = false -> rstrip_sep (d +:+ "/") = d.
Proof.
  induction d as [|c d IH]; [congruence |]. intros _.
  rewrite PyStrFacts.append_cons.
  change (rstrip_sep (String c (d +:+ "/")))
    with (if Ascii.eqb c "/" && String.eqb (rstrip_sep (d +:+ "/")) ""
          then EmptyString else String c (rstrip_sep (d +:+ "/"))).
  destruct d as [|c' d'].
  - cbn. intros ->. reflexivity.
  - intros He. change (ends_with "/" (String c (String c' d')))
      with (ends_with "/" (String c' d')) in He.
    rewrite (IH ltac:(discriminate) He).
    change (String.eqb (String c' d') "") with false.
    now rewrite andb_false_r.
Qed.

(** The directory name of [d/f]. *)
Lemma dirname_dir_file (d f : string) :
  d <> "" -> ends_with "/" d = false -> contains "/" f = false ->
  dirname (d +:+ "/" +:+ f) = d.
Proof.
  intros Hd He Hf. unfold dirname.
  assert (upto_last_sep (d +:+ "/" +:+ f) = d +:+ "/") as ->.
  { change ("/" +:+ f) with (String "/" f).
    rewrite upto_last_sep_app; cbn [upto_last_sep];
      rewrite (upto_last_sep_none f Hf); [reflexivity | discriminate]. }
  assert (String.eqb (d +:+ "/") "" = false) as ->.
  { apply String.eqb_neq. destruct d; [congruence | discriminate]. }
  rewrite (all_sep_app_l d "/" (ends_with_all_sep d Hd He)).
  cbn [negb andb]. now apply rstrip_sep_dir.
Qed.

Lemma dirname_bare_file (f : string) :
  contains "/" f = false -> dirname f = "".
Proof. intros Hf. unfold dirname. now rewrite (upto_last_sep_none f Hf). Qed.

Lemma legacy_output_dir (user_config : gmap string jvalue) (path : string) :
  user_config !! "OUTPUT_IMAGE_DIR" = None ->
  user_config !! "OUTPUT_IMAGE_PATH" = Some (JStr path) ->
  (load_config (ConfigObject user_config)).1 !! "OUTPUT_IMAGE_DIR"
  = Some (JStr (if String.eqb (dirname path) ""
                then "assets/annotated_images/"
                else dirname path)).
Proof.
  intros Hdir Hpath. unfold load_config, convert_legacy_key.
  rewrite Hdir, Hpath.
  destruct (String.eqb (dirname path) "") eqn:Hd; cbn [negb fst].
  - rewrite lookup_user_wins, lookup_delete_ne by discriminate.
    rewrite Hdir. apply default_output_dir.
  - rewrite lookup_user_wins. now rewrite lookup_insert_eq.
Qed.

(** X23.  For a file holding an object without [OUTPUT_IMAGE_DIR]: a
    legacy path [d/f], where [d] is not empty and does not end with a
    slash and [f] has no slash, sets [OUTPUT_IMAGE_DIR] to [d]; a legacy
    path without any slash leaves [OUTPUT_IMAGE_DIR] at its default. *)
Theorem load_config_legacy_dir (user_config : gmap string jvalue) :
  user_config !! "OUTPUT_IMAGE_DIR" = None ->
  (forall d f,
     user_config !! "OUTPUT_IMAGE_PATH" = Some (JStr (d +:+ "/" +:+ f)) ->
     d <> "" -> ends_with "/" d = false -> contains "/" f = false ->
     (load_config (ConfigObject user_config)).1 !! "OUTPUT_IMAGE_DIR"
     = Some (JStr d)) /\
  (forall f,
     user_config !! "OUTPUT_IMAGE_PATH" = Some (JStr f) ->
     contains "/" f = false ->
     (load_config (ConfigObject user_config)).1 !! "OUTPUT_IMAGE_DIR"
     = Some (JStr "assets/annotated_images/")).
Proof.
  intros Hdir. split.
  - intros d f Hpath Hd He Hf.
    rewrite (legacy_output_dir _ _ Hdir Hpath).
    rewrite (dirname_dir_file d f Hd He Hf).
    assert (String.eqb d "" = false) as -> by now apply String.eqb_neq.
    reflexivity.
  - intros f Hpath Hf.
    rewrite (legacy_output_dir _ _ Hdir Hpath).
    now rewrite (dirname_bare_file f Hf).
Qed.

End ConfigFacts.

Lemma load_config_user_wins_witness :
  (load_config (ConfigObject {[ "TOP_K_RESULTS" := JInt 5 ]})).1
    !! "TOP_K_RESULTS"
  = Some (JInt 5).
Proof.
  rewrite (load_config_user_wins {[ "TOP_K_RESULTS" := JInt 5 ]});
    [reflexivity | right; reflexivity].
Defined.

Lemma load_config_legacy_key_witness :
  (load_config
     (ConfigObject {[ "OUTPUT_IMAGE_PATH" := JStr "results/out.jpg" ]})).1
    !! "OUTPUT_IMAGE_PATH"
  = None.
Proof.
  apply (load_config_legacy_key
           {[ "OUTPUT_IMAGE_PATH" := JStr "results/out.jpg" ]}
           (JStr "results/out.jpg")); reflexivity.
Defined.

Lemma load_config_legacy_dir_witness :
  (load_config
     (ConfigObject {[ "OUTPUT_IMAGE_PATH" := JStr "results/out.jpg" ]})).1
    !! "OUTPUT_IMAGE_DIR"
  = Some (JStr "results").
Proof.
  destruct (load_config_legacy_dir
              {[ "OUTPUT_IMAGE_PATH" := JStr "results/out.jpg" ]})
    as [H _]; [vm_compute; reflexivity |].
  apply (H "results" "out.jpg");
    [vm_compute; reflexivity | discriminate | reflexivity..].
Defined.

(** ** A block and its own anchor *)

Lemma candidate_clear_of_anchor (qr_x qr_y qr_w qr_h text_w text_h : Z)
    (pos : Z * Z) :
  In pos (candidate_positions (qr_x, qr_y, qr_w, qr_h) text_w text_h) ->
  check_overlap (candidate_rect pos text_w text_h)
    (qr_x, qr_y, qr_x + qr_w, qr_y + qr_h) = false.
Proof.
  unfold candidate_positions, qr_box_padding.
  intros [<-|[<-|[<-|[<-|[<-|[<-|[]]]]]]];
    unfold candidate_rect, check_overlap;
    repeat match goal with
      | |- context [Z.geb ?a ?b] => destruct (Z.geb_spec a b)
      | |- context [Z.leb ?a ?b] => destruct (Z.leb_spec a b)
      end; cbn [orb]; try reflexivity; lia.
Qed.

(** X24.  A block placed by the search never overlaps the anchor box it
    belongs to, whatever the sizes of the box, of the block and of the
    canvas. *)
Theorem placed_block_clear_of_anchor (qr_x qr_y qr_w qr_h : Z)
    (text_w text_h img_w img_h : Z) (occupied : list rect) (pos : Z * Z) :
  find_position (qr_x, qr_y, qr_w, qr_h) text_w text_h img_w img_h occupied
  = Some pos ->
  check_overlap (candidate_rect pos text_w text_h)
    (qr_x, qr_y, qr_x + qr_w, qr_y + qr_h) = false.
Proof.
  unfold find_position. intros Hfind.
  pose proof (search_candidates_first text_w text_h img_w img_h occupied
                (candidate_positions (qr_x, qr_y, qr_w, qr_h) text_w text_h))
    as Hfirst.
  rewrite Hfind in Hfirst. destruct Hfirst as (pre & post & Heq & _).
  apply candidate_clear_of_anchor. rewrite Heq.
  apply in_or_app. right. now left.
Qed.

Lemma placed_block_clear_of_anchor_witness :
  check_overlap (candidate_rect (70, 135) 120 50) (70, 70, 70 + 60, 70 + 60)
  = false.
Proof.
  apply (placed_block_clear_of_anchor 70 70 60 60 120 50 1024 768
           [(110, 45, 230, 95)]).
  reflexivity.
Defined.

Lemma text_block_dimensions_bounds_witness :
  10 <= fst (get_text_block_dimensions sample_getTextSize
               ["Name: Alice"; "Bio:"])
     <= text_block_max_width + 2 * padding.
Proof.
  destruct (text_block_dimensions_bounds sample_getTextSize
              ["Name: Alice"; "Bio:"]) as [_ H].
  destruct H as [H _]; [discriminate | exact H].
Defined.

Lemma detections_map_lookup_witness :
  detections_map
    [sample_detection (50, 50, 60, 60); sample_detection (70, 70, 60, 60)]
    !! "id1"
  = Some (sample_detection (70, 70, 60, 60)).
Proof.
  destruct (detections_map_lookup
              [sample_detection (50, 50, 60, 60);
               sample_detection (70, 70, 60, 60)] "id1") as (_ & _ & H).
  apply (H [sample_detection (50, 50, 60, 60)]
           (sample_detection (70, 70, 60, 60)) []).
  - reflexivity.
  - split; [reflexivity | cbn; eauto].
  - constructor.
Defined.

Lemma load_profiles_lookup_witness :
  load_profiles (Some sample_entries) !! "id2"
  = Some (with_defaults "id2" (sample_entry "id2" (9 # 10))).
Proof.
  destruct (load_profiles_lookup sample_entries "id2") as (_ & _ & _ & H).
  apply (H [sample_entry "id1" (1 # 2)] (sample_entry "id2" (9 # 10))
           [sample_entry "id3" (1 # 2)]).
  - reflexivity.
  - reflexivity.
  - repeat constructor. discriminate.
Defined.

Lemma rank_profiles_sound_witness :
  In "id2" ["id1"; "id2"; "id3"]
  /\ exists entry,
       load_profiles (Some sample_entries) !! "id2" = Some entry
       /\ entry_relevance entry = Some (Finite (9 # 10)).
Proof.
  destruct (rank_profiles_sound ["id1"; "id2"; "id3"]
              (load_profiles (Some sample_entries)) 2) as [H _].
  apply (H "id2" (Finite (9 # 10))).
  vm_compute. left. reflexivity.
Defined.

Lemma detect_qr_codes_detections_witness :
  (length (detect_qr_codes ascii_decode (Some sample_objects))
   <= length sample_objects)%nat.
Proof.
  destruct (detect_qr_codes_detections ascii_decode (Some sample_objects))
    as (_ & H & _).
  destruct (H sample_objects eq_refl) as [_ Hlen]. exact Hlen.
Defined.

Lemma loaded_profile_display_witness :
  exists raw,
    In raw sample_entries /\ entry_id raw = Some "id1"
    /\ name_to_display
         (entry_profile <$> load_profiles (Some sample_entries)) "id1"
       = default "id1" (entry_name raw)
    /\ bio_to_display
         (entry_profile <$> load_profiles (Some sample_entries)) "id1"
       = default "Bio not available." (entry_bio raw).
Proof.
  destruct (loaded_profile_display sample_entries "id1") as [H _].
  apply (H (with_defaults "id1" (sample_entry "id1" (1 # 2)))).
  vm_compute. reflexivity.
Defined.

Lemma load_config_defaults_witness :
  is_Some ((load_config ConfigUnreadable).1 !! "QR_CODES_DIR").
Proof.
  destruct (load_config_defaults ConfigUnreadable) as [H _].
  apply H. vm_compute. eauto.
Defined.

(** Two profiles of the sample file have the score 0.5; they are ranked
    in the order of detection. *)
Lemma rank_profiles_stable_witness :
  List.filter (fun x : string * pyfloat => same_score x.2 (Finite (1 # 2)))
    (rank_profiles ["id3"; "id2"; "id1"] (load_profiles (Some sample_entries))
       2)
  `prefix_of`
  List.filter (fun x : string * pyfloat => same_score x.2 (Finite (1 # 2)))
    (omap (scored (load_profiles (Some sample_entries)))
       ["id3"; "id2"; "id1"]).
Proof.
  apply (rank_profiles_stable ["id3"; "id2"; "id1"]
           (load_profiles (Some sample_entries)) 2 (Finite (1 # 2))).
  intros pid entry Hentry.
  apply load_profiles_origin in Hentry as (ps & raw & [= <-] & Hin & _ & ->).
  destruct Hin as [<-|[<-|[<-|[]]]]; discriminate.
Defined.
